(** * internal/ui/ui_glfw.go: screen geometry and main-thread dispatch

    A shallow embedding of the desktop (GLFW) user interface of the
    repository: the [userInterface] struct, the operations that read and
    change its geometry ([glfwSize], [getScale], [actualScreenScale],
    [setScreenSize]), the dispatcher ([runOnMainThread],
    [RunMainThreadLoop]) and the public control surface ([SetScreenSize],
    [SetScreenScale], [SetFullscreen], [ScreenScale], [IsFullscreen]).

    Go's [float64] is Rocq's primitive binary64 [float]; Go's [int] is [Z]
    (no integer arithmetic is performed on the fields by the embedded
    functions, only comparisons and conversions).  The GLFW library is not
    part of the repository: what it answers is read from a [Platform]
    record, and every call made to it is recorded in a trace of [Call]s. *)

From Stdlib Require Import ZArith Bool List String Lia.
From Stdlib Require Import Floats.
From Stdlib Require Import Reals Lra.
Import ListNotations.

Local Open Scope Z_scope.

(** ** float64 conversions *)

Module Float64.

(** [float64(n)] for an [int] n: the nearest binary64, ties to even. *)
Definition of_int (n : Z) : float :=
  SF2Prim (binary_normalize prec emax n 0 false).

(** The integer part of a finite float, rounded toward zero; the
    "integer indefinite" value [-2^63] for NaN and the infinities. *)
Definition trunc (f : float) : Z :=
  match Prim2SF f with
  | S754_zero _ => 0
  | S754_finite neg m e =>
      let mag := Z.shiftl (Zpos m) e in
      if neg then - mag else mag
  | S754_infinity _ => - 2 ^ 63
  | S754_nan => - 2 ^ 63
  end.

(** [int(f)] for a [float64] f.  Go truncates toward zero and leaves the
    result implementation-defined when the value does not fit; this is
    the amd64 result (CVTTSD2SQ), which is [-2^63] there. *)
Definition to_int (f : float) : Z :=
  let z := trunc f in
  if (- 2 ^ 63 <=? z) && (z <? 2 ^ 63) then z else - 2 ^ 63.

End Float64.

Import Float64.

(** ** The platform (GLFW) *)

(** [glfw.VidMode], as far as the code reads it. *)
Record VidMode : Type := mkVidMode {
  Width : Z;
  Height : Z;
  RefreshRate : Z
}.

(** What the platform answers while one unit of work runs. *)
Record Platform : Type := mkPlatform {
  (** result of the package function [glfwScale()] *)
  platGlfwScale : float;
  (** result of the package function [deviceScale()] *)
  platDeviceScale : float;
  (** [glfw.GetPrimaryMonitor().GetVideoMode()] *)
  platVideoMode : VidMode;
  (** [window.GetPos()] *)
  platWindowPos : Z * Z;
  (** how many [glfw.PollEvents()] calls return before the one during which
      the framebuffer-size callback fires; [None] when it never fires *)
  platResizeAfter : option nat
}.

(** The calls made to the platform, in order. *)
Inductive Call : Type :=
| CGlfwScale
| CDeviceScale
| CGetVideoMode
| CGetPos
| CSwapBuffers
| CSetMonitor (onMonitor : bool) (x y w h rate : Z)
| CSetFramebufferSizeCallback
| CSetSize (w h : Z)
| CPollEvents
| CSetTitle (t : string).

(** ** The state *)

(** An open, unbuffered [chan func()]; a nil channel is [None]. *)
Inductive chan : Type := MkChan.

(** [type userInterface struct].  The window handle is assigned once by
    [initialize] and never again, the mutex only guards [running]; both are
    left out. *)
Record userInterface : Type := mkUI {
  title : string;
  width : Z;
  height : Z;
  scale : float;
  deviceScale : float;
  glfwScale : float;
  fullscreen : bool;
  fullscreenScale : float;
  funcs : option chan;
  running : bool;
  sizeChanged : bool;
  origPosX : Z;
  origPosY : Z
}.

Definition set_size (w h : Z) (u : userInterface) : userInterface :=
  mkUI (title u) w h (scale u) (deviceScale u) (glfwScale u) (fullscreen u)
       (fullscreenScale u) (funcs u) (running u) (sizeChanged u)
       (origPosX u) (origPosY u).

Definition set_scale (s : float) (u : userInterface) : userInterface :=
  mkUI (title u) (width u) (height u) s (deviceScale u) (glfwScale u)
       (fullscreen u) (fullscreenScale u) (funcs u) (running u)
       (sizeChanged u) (origPosX u) (origPosY u).

Definition set_deviceScale (s : float) (u : userInterface) : userInterface :=
  mkUI (title u) (width u) (height u) (scale u) s (glfwScale u)
       (fullscreen u) (fullscreenScale u) (funcs u) (running u)
       (sizeChanged u) (origPosX u) (origPosY u).

Definition set_glfwScale (s : float) (u : userInterface) : userInterface :=
  mkUI (title u) (width u) (height u) (scale u) (deviceScale u) s
       (fullscreen u) (fullscreenScale u) (funcs u) (running u)
       (sizeChanged u) (origPosX u) (origPosY u).

Definition set_fullscreen (b : bool) (u : userInterface) : userInterface :=
  mkUI (title u) (width u) (height u) (scale u) (deviceScale u) (glfwScale u)
       b (fullscreenScale u) (funcs u) (running u) (sizeChanged u)
       (origPosX u) (origPosY u).

Definition set_fullscreenScale (s : float) (u : userInterface)
  : userInterface :=
  mkUI (title u) (width u) (height u) (scale u) (deviceScale u) (glfwScale u)
       (fullscreen u) s (funcs u) (running u) (sizeChanged u)
       (origPosX u) (origPosY u).

Definition set_running (b : bool) (u : userInterface) : userInterface :=
  mkUI (title u) (width u) (height u) (scale u) (deviceScale u) (glfwScale u)
       (fullscreen u) (fullscreenScale u) (funcs u) b (sizeChanged u)
       (origPosX u) (origPosY u).

Definition set_sizeChanged (b : bool) (u : userInterface) : userInterface :=
  mkUI (title u) (width u) (height u) (scale u) (deviceScale u) (glfwScale u)
       (fullscreen u) (fullscreenScale u) (funcs u) (running u) b
       (origPosX u) (origPosY u).

Definition set_origPos (x y : Z) (u : userInterface) : userInterface :=
  mkUI (title u) (width u) (height u) (scale u) (deviceScale u) (glfwScale u)
       (fullscreen u) (fullscreenScale u) (funcs u) (running u)
       (sizeChanged u) x y.

(** The session [initialize] stores in [currentUI] when [glfw.Init] and
    [glfw.CreateWindow] succeed: the struct literal of lines 75-81, where
    every field not named has Go's zero value. *)
Definition initialize : userInterface :=
  {| title := EmptyString;
     width := 0;
     height := 0;
     scale := 0%float;
     deviceScale := 0%float;
     glfwScale := 0%float;
     fullscreen := false;
     fullscreenScale := 0%float;
     funcs := Some MkChan;
     running := false;
     sizeChanged := true;
     origPosX := -1;
     origPosY := -1 |}.

(** ** Calls, with their effect on the state and on the platform *)

(** [error]: [nil] is [None]. *)
Definition error : Type := option string.

(** How a call ends: it returns a value, leaving a state and the platform
    calls it made; it panics; or it never returns, because it waits on a
    channel that nobody serves or spins in a loop whose exit event never
    comes. *)
Inductive outcome (A : Type) : Type :=
| Returns (a : A) (u : userInterface) (calls : list Call)
| Panics (msg : string)
| Blocks.

Arguments Returns {A} a u calls.
Arguments Panics {A} msg.
Arguments Blocks {A}.

Definition M (A : Type) : Type := userInterface -> outcome A.

Definition ret {A} (a : A) : M A := fun u => Returns a u [].

Definition bind {A B} (m : M A) (k : A -> M B) : M B :=
  fun u =>
    match m u with
    | Returns a u1 c1 =>
        match k a u1 with
        | Returns b u2 c2 => Returns b u2 (c1 ++ c2)
        | Panics msg => Panics msg
        | Blocks => Blocks
        end
    | Panics msg => Panics msg
    | Blocks => Blocks
    end.

Definition get : M userInterface := fun u => Returns u u [].

Definition modify (f : userInterface -> userInterface) : M unit :=
  fun u => Returns tt (f u) [].

Definition call (c : Call) : M unit := fun u => Returns tt u [c].

Definition panic {A} (msg : string) : M A := fun _ => Panics msg.

Definition block {A} : M A := fun _ => Blocks.

Definition when (b : bool) (m : M unit) : M unit := if b then m else ret tt.

Declare Scope ui_scope.
Delimit Scope ui_scope with ui.
Notation "x <- m ;; k" := (bind m (fun x => k))
  (at level 61, m at next level, right associativity) : ui_scope.
Notation "m ;; k" := (bind m (fun _ => k))
  (at level 61, right associativity) : ui_scope.
Local Open Scope ui_scope.

Definition minWindowWidth : Z := 252.

Section Session.

Variable p : Platform.

(** *** Platform queries *)

Definition queryGlfwScale : M float :=
  call CGlfwScale ;; ret (platGlfwScale p).

Definition queryDeviceScale : M float :=
  call CDeviceScale ;; ret (platDeviceScale p).

Definition GetVideoMode : M VidMode :=
  call CGetVideoMode ;; ret (platVideoMode p).

Definition GetPos : M (Z * Z) :=
  call CGetPos ;; ret (platWindowPos p).

(** *** Geometry *)

Definition glfwSize : M (Z * Z) :=
  u <- get ;;
  when (glfwScale u =? 0)%float
    (v <- queryGlfwScale ;; modify (set_glfwScale v)) ;;
  u <- get ;;
  ret (to_int (of_int (width u) * scale u * glfwScale u)%float,
       to_int (of_int (height u) * scale u * glfwScale u)%float).

Definition getScale : M float :=
  u <- get ;;
  if negb (fullscreen u) then ret (scale u)
  else
    when (fullscreenScale u =? 0)%float
      (when (glfwScale u =? 0)%float
         (v <- queryGlfwScale ;; modify (set_glfwScale v)) ;;
       v <- GetVideoMode ;;
       u <- get ;;
       let sw := (of_int (Width v) / glfwScale u / of_int (width u))%float in
       let sh := (of_int (Height v) / glfwScale u / of_int (height u))%float in
       let s := if (sh <? sw)%float then sh else sw in
       modify (set_fullscreenScale s)) ;;
    u <- get ;;
    ret (fullscreenScale u).

Definition actualScreenScale : M float :=
  u <- get ;;
  when (deviceScale u =? 0)%float
    (v <- queryDeviceScale ;; modify (set_deviceScale v)) ;;
  s <- getScale ;;
  u <- get ;;
  ret (s * deviceScale u)%float.

Definition swapBuffers : M unit := call CSwapBuffers.

(** The loop labelled [event]: poll until the framebuffer-size callback
    has closed the channel.  [n] polls return without it. *)
Fixpoint pollUntilResized (n : nat) : M unit :=
  call CPollEvents ;;
  match n with
  | O => ret tt
  | S n' => pollUntilResized n'
  end.

Definition waitForResize : M unit :=
  match platResizeAfter p with
  | Some n => pollUntilResized n
  | None => block
  end.

Definition setScreenSize (w h : Z) (s : float) (fs : bool) : M bool :=
  u <- get ;;
  if (width u =? w) && (height u =? h) && (scale u =? s)%float
     && Bool.eqb (fullscreen u) fs
  then ret false
  else
    let origScale := scale u in
    modify (set_scale s) ;;
    a <- actualScreenScale ;;
    if to_int (of_int w * a)%float <? minWindowWidth
    then modify (set_scale origScale) ;; ret false
    else
      u <- get ;;
      when (negb (width u =? w) || negb (height u =? h))
        (modify (set_size w h) ;; modify (set_fullscreenScale 0%float)) ;;
      swapBuffers ;;
      modify (set_fullscreen fs) ;;
      v <- GetVideoMode ;;
      u <- get ;;
      (if fullscreen u
       then
         when ((origPosX u <? 0) && (origPosY u <? 0))
           (xy <- GetPos ;; modify (set_origPos (fst xy) (snd xy))) ;;
         call (CSetMonitor true 0 0 (Width v) (Height v) (RefreshRate v))
       else
         when ((0 <=? origPosX u) && (0 <=? origPosY u))
           (call (CSetMonitor false (origPosX u) (origPosY u) 16 16
                    (RefreshRate v)) ;;
            modify (set_origPos (-1) (-1))) ;;
         call CSetFramebufferSizeCallback ;;
         wh <- glfwSize ;;
         call (CSetSize (fst wh) (snd wh)) ;;
         waitForResize ;;
         u <- get ;;
         call (CSetTitle (title u))) ;;
      modify (set_sizeChanged true) ;;
      ret true.

(** *** The dispatcher *)

Definition isRunning : M bool := u <- get ;; ret (running u).

Definition setRunning (b : bool) : M unit := modify (set_running b).

(** [runOnMainThread(f)].  The closure [f] reads and assigns locals of its
    caller: they are the value of type [R] it is given and gives back.
    With a nil queue the call returns at once.  Otherwise the closure is
    sent on the queue, and the only receiver is the loop of
    [RunMainThreadLoop], which is in its [select] exactly while [running]
    is set: then the closure runs and its error is returned; without that
    receiver the send does not complete. *)
Definition runOnMainThread {R} (f : R -> M (R * error)) (r : R)
  : M (R * error) :=
  u <- get ;;
  match funcs u with
  | None => ret (r, None)
  | Some _ => if running u then f r else block
  end.

(** What the [select] of the main loop receives: a closure from the queue
    or a value from the termination channel. *)
Inductive received : Type :=
| Submitted (f : M unit)
| Terminated (err : error).

Fixpoint mainLoop (rs : list received) : M error :=
  match rs with
  | [] => block
  | Submitted f :: rs' => f ;; mainLoop rs'
  | Terminated err :: _ => ret err
  end.

Definition RunMainThreadLoop (rs : list received) : M error :=
  setRunning true ;;
  err <- mainLoop rs ;;
  setRunning false ;;
  ret err.

(** *** The public control surface *)

Definition SetScreenSize (w h : Z) : M bool :=
  b <- isRunning ;;
  if negb b then panic "ui: Run is not called yet"
  else
    re <- runOnMainThread
            (fun _ : bool =>
               u <- get ;;
               r <- setScreenSize w h (scale u) (fullscreen u) ;;
               ret (r, None))
            false ;;
    ret (fst re).

Definition SetScreenScale (s : float) : M bool :=
  b <- isRunning ;;
  if negb b then panic "ui: Run is not called yet"
  else
    re <- runOnMainThread
            (fun _ : bool =>
               u <- get ;;
               r <- setScreenSize (width u) (height u) s (fullscreen u) ;;
               ret (r, None))
            false ;;
    ret (fst re).

Definition SetFullscreen (fs : bool) : M bool :=
  b <- isRunning ;;
  if negb b then panic "ui: Run is not called yet"
  else
    re <- runOnMainThread
            (fun _ : bool =>
               u <- get ;;
               r <- setScreenSize (width u) (height u) (scale u) fs ;;
               ret (r, None))
            false ;;
    ret (fst re).

Definition ScreenScale : M float :=
  b <- isRunning ;;
  if negb b then ret 0%float
  else
    re <- runOnMainThread
            (fun _ : float => u <- get ;; ret (scale u, None))
            0%float ;;
    ret (fst re).

Definition IsFullscreen : M bool :=
  b <- isRunning ;;
  if negb b then ret false
  else
    re <- runOnMainThread
            (fun _ : bool => u <- get ;; ret (fullscreen u, None))
            false ;;
    ret (fst re).

End Session.

Arguments of_int : simpl never.
Arguments to_int : simpl never.

(** ** Vocabulary of the properties *)

(** The comparison that opens [setScreenSize] (line 351), with Go's [==] on
    the float. *)
Definition sameTuple (u : userInterface) (w h : Z) (s : float) (fs : bool)
  : bool :=
  (width u =? w) && (height u =? h) && (scale u =? s)%float
  && Bool.eqb (fullscreen u) fs.

(** The fullscreen-fit scale of lines 255-260, as a function of the video
    mode, the window scale and the logical size. *)
Definition fitScale (v : VidMode) (gs : float) (w h : Z) : float :=
  let sw := (of_int (Width v) / gs / of_int w)%float in
  let sh := (of_int (Height v) / gs / of_int h)%float in
  if (sh <? sw)%float then sh else sw.

(** The fields that are not lazily filled caches. *)
Definition same_geometry (u u' : userInterface) : Prop :=
  title u' = title u /\ width u' = width u /\ height u' = height u /\
  scale u' = scale u /\ fullscreen u' = fullscreen u /\
  funcs u' = funcs u /\ running u' = running u /\
  sizeChanged u' = sizeChanged u /\
  origPosX u' = origPosX u /\ origPosY u' = origPosY u.

(** The window scale after a read that fills it when [fill] holds, and the
    device scale after a read of [actualScreenScale]. *)
Definition filledGlfwScale (p : Platform) (fill : bool) (u : userInterface)
  : float :=
  if fill && (glfwScale u =? 0)%float then platGlfwScale p else glfwScale u.

Definition filledDeviceScale (p : Platform) (u : userInterface) : float :=
  if (deviceScale u =? 0)%float then platDeviceScale p else deviceScale u.

(** The remembered position after an accepted request (lines 382-394). *)
Definition acceptedOrigPos (p : Platform) (fs : bool) (u : userInterface)
  : Z * Z :=
  if fs
  then if (origPosX u <? 0) && (origPosY u <? 0)
       then platWindowPos p else (origPosX u, origPosY u)
  else if (0 <=? origPosX u) && (0 <=? origPosY u)
       then (-1, -1) else (origPosX u, origPosY u).

(** A windowed position is remembered: the negation of the test of line
    383 that lets [setScreenSize] remember one. *)
Definition origPosSet (u : userInterface) : bool :=
  negb ((origPosX u <? 0) && (origPosY u <? 0)).

(** States reached from [initialize] by [setScreenSize] calls that return,
    each on a platform that satisfies [ok]. *)
Inductive reachableOn (ok : Platform -> Prop) : userInterface -> Prop :=
| reach_initialize : reachableOn ok initialize
| reach_setScreenSize p w h s fs u b u' c :
    reachableOn ok u -> ok p ->
    setScreenSize p w h s fs u = Returns b u' c ->
    reachableOn ok u'.

Definition reachable : userInterface -> Prop := reachableOn (fun _ => True).

(** The platform reports window positions on or right of and below the
    origin of the primary monitor. *)
Definition nonnegWindowPos (p : Platform) : Prop :=
  0 <= fst (platWindowPos p) /\ 0 <= snd (platWindowPos p).

(** The formula the specification gives for [actualScreenScale()] while
    fullscreen: [min(displayWidth, displayHeight * (width/height)) /
    windowScale / width], evaluated in float64. *)
Definition specFullscreenActualScale (v : VidMode) (ws : float) (w h : Z)
  : float :=
  let dw := of_int (Width v) in
  let dh := (of_int (Height v) * (of_int w / of_int h))%float in
  ((if (dh <? dw)%float then dh else dw) / ws / of_int w)%float.

(** The same two formulas over the reals, without the device scale: the
    fit scale as the code computes it and as the specification writes
    it. *)
Definition fitScaleR (dw dh ws w h : R) : R :=
  Rmin (dw / ws / w) (dh / ws / h).

Definition specFitScaleR (dw dh ws w h : R) : R :=
  (Rmin dw (dh * (w / h)) / ws / w)%R.


(** *** Platforms and states used as concrete inputs *)

(** A 1920x1080 display at 60 Hz, window at (100, 100), both scales 1, the
    framebuffer-size callback fired by the second poll. *)
Definition desktop : Platform :=
  {| platGlfwScale := 1%float;
     platDeviceScale := 1%float;
     platVideoMode := mkVidMode 1920 1080 60;
     platWindowPos := (100, 100);
     platResizeAfter := Some 1%nat |}.

(** The same display with two device pixels per logical pixel. *)
Definition hidpi : Platform :=
  {| platGlfwScale := 1%float;
     platDeviceScale := 2%float;
     platVideoMode := mkVidMode 1920 1080 60;
     platWindowPos := (100, 100);
     platResizeAfter := Some 1%nat |}.

(** The same display with the window hanging over its left edge. *)
Definition overLeftEdge : Platform :=
  {| platGlfwScale := 1%float;
     platDeviceScale := 1%float;
     platVideoMode := mkVidMode 1920 1080 60;
     platWindowPos := (-5, 100);
     platResizeAfter := Some 1%nat |}.

(** The same display with the window hanging over its top left corner. *)
Definition overTopLeftCorner : Platform :=
  {| platGlfwScale := 1%float;
     platDeviceScale := 1%float;
     platVideoMode := mkVidMode 1920 1080 60;
     platWindowPos := (-5, -7);
     platResizeAfter := Some 1%nat |}.

(** The state a call leaves; the state it started from when it does not
    return. *)
Definition stateAfter {A} (o : outcome A) (u : userInterface)
  : userInterface :=
  match o with
  | Returns _ u' _ => u'
  | _ => u
  end.

(** [initialize], then 640x480 at scale 1 windowed on [desktop]. *)
Definition windowed640 : userInterface :=
  stateAfter (setScreenSize desktop 640 480 1%float false initialize)
    initialize.

(** [initialize], then 640x480 at scale 1 fullscreen on [desktop]. *)
Definition fullscreen640 : userInterface :=
  stateAfter (setScreenSize desktop 640 480 1%float true initialize)
    initialize.

(** [initialize], then 640x480 fullscreen while the window hangs over the
    left edge, then the same size windowed again. *)
Definition leftEdgeFullscreen : userInterface :=
  stateAfter (setScreenSize overLeftEdge 640 480 1%float true initialize)
    initialize.

Definition leftEdgeWindowed : userInterface :=
  stateAfter
    (setScreenSize overLeftEdge 640 480 1%float false leftEdgeFullscreen)
    leftEdgeFullscreen.

(** [initialize], then 640x480 at scale 1 fullscreen while the window hangs
    over the top left corner. *)
Definition topLeftFullscreen : userInterface :=
  stateAfter (setScreenSize overTopLeftCorner 640 480 1%float true initialize)
    initialize.


(** The session once the main loop has received its termination value and
    returned. *)
Definition afterMainLoop (err : error) : userInterface :=
  stateAfter (RunMainThreadLoop [Terminated err] initialize) initialize.

(** ** The frame loop *)

Definition set_title (t : string) (u : userInterface) : userInterface :=
  mkUI t (width u) (height u) (scale u) (deviceScale u) (glfwScale u)
       (fullscreen u) (fullscreenScale u) (funcs u) (running u)
       (sizeChanged u) (origPosX u) (origPosY u).

(** Go's [int] is 64 bits wide: the sum or difference of two of them wraps
    around. *)
Definition wrapInt (z : Z) : Z := (z + 2 ^ 63) mod 2 ^ 64 - 2 ^ 63.

(** What [Run], [loop], [update] and [pollEvents] do to their
    collaborators: the GLFW calls of [Call] and, beyond them, the window
    queries of the frame loop, the input state, the graphics context [g]
    and the OpenGL context. *)
Inductive Effect : Type :=
| EGlfw (c : Call)
| EShouldClose
| EFocused
| ESleep
| EInputUpdate (s : float)
| EContextSetSize (w h : Z) (s : float)
| EContextUpdate
| EBindScreenFramebuffer
| ETerminate
| EOpenglInit
| EShow
| ESetPos (x y : Z).

(** The errors of the frame loop: the [*RegularTermination] value, or any
    other error, here by its message. *)
Inductive failure : Type :=
| RegularTermination
| Failed (msg : string).

(** How a call of the frame loop ends; as [outcome], with the wider log. *)
Inductive result (A : Type) : Type :=
| Done (a : A) (u : userInterface) (log : list Effect)
| Panicked (msg : string)
| Hangs.

Arguments Done {A} a u log.
Arguments Panicked {A} msg.
Arguments Hangs {A}.

Definition L (A : Type) : Type := userInterface -> result A.

Definition retL {A} (a : A) : L A := fun u => Done a u [].

Definition bindL {A B} (m : L A) (k : A -> L B) : L B :=
  fun u =>
    match m u with
    | Done a u1 l1 =>
        match k a u1 with
        | Done b u2 l2 => Done b u2 (l1 ++ l2)
        | Panicked msg => Panicked msg
        | Hangs => Hangs
        end
    | Panicked msg => Panicked msg
    | Hangs => Hangs
    end.

Definition getL : L userInterface := fun u => Done u u [].

Definition modifyL (f : userInterface -> userInterface) : L unit :=
  fun u => Done tt (f u) [].

Definition effect (e : Effect) : L unit := fun u => Done tt u [e].

Definition hang {A} : L A := fun _ => Hangs.

Definition whenL (b : bool) (m : L unit) : L unit :=
  if b then m else retL tt.

(** A call of the geometry code, inside the frame loop. *)
Definition liftM {A} (m : M A) : L A :=
  fun u =>
    match m u with
    | Returns a u' c => Done a u' (map EGlfw c)
    | Panics msg => Panicked msg
    | Blocks => Hangs
    end.

(** What the window answers while [update] waits for the focus: it has the
    focus; or it has not, and after the sleep and the poll it does or does
    not ask to be closed; or it never gets the focus and never asks to be
    closed. *)
Inductive focusScript : Type :=
| HasFocus
| Unfocused (closeRequested : bool) (next : focusScript)
| NeverFocused.

(** What the collaborators answer during one pass of [loop]. *)
Record Frame : Type := mkFrame {
  (** the GLFW answers *)
  framePlatform : Platform;
  (** [window.ShouldClose()] at the top of [update] *)
  frameClose : bool;
  (** the wait for the focus *)
  frameFocus : focusScript;
  (** [g.Update()] *)
  frameUpdate : option failure;
  (** [opengl.GetContext().BindScreenFramebuffer()] *)
  frameBind : option failure
}.

Declare Scope frame_scope.
Delimit Scope frame_scope with frame.
Notation "x <- m ;; k" := (bindL m (fun x => k))
  (at level 61, m at next level, right associativity) : frame_scope.
Notation "m ;; k" := (bindL m (fun _ => k))
  (at level 61, right associativity) : frame_scope.

Section FrameLoop.

Local Open Scope frame_scope.

(** [adjustWindowPosition] lives in a file per operating system. *)
Variable adjustWindowPosition : Z -> Z -> Z * Z.

(** [runOnMainThread] for the closures of the frame loop, which also reach
    the window, the input state and the graphics context: the same three
    cases. *)
Definition dispatch {R} (f : R -> L (R * option failure)) (r : R)
  : L (R * option failure) :=
  u <- getL ;;
  match funcs u with
  | None => retL (r, None)
  | Some _ => if running u then f r else hang
  end.

Definition pollEvents (p : Platform) : L unit :=
  effect (EGlfw CPollEvents) ;;
  u <- getL ;;
  whenL (glfwScale u =? 0)%float
    (v <- liftM (queryGlfwScale p) ;; modifyL (set_glfwScale v)) ;;
  s <- liftM (getScale p) ;;
  u <- getL ;;
  effect (EInputUpdate (s * glfwScale u)%float).

(** The loop of lines 308-315. *)
Fixpoint waitForFocus (p : Platform) (sc : focusScript) : L unit :=
  effect EFocused ;;
  match sc with
  | HasFocus => retL tt
  | Unfocused closeRequested next =>
      effect ESleep ;;
      pollEvents p ;;
      effect EShouldClose ;;
      if closeRequested then retL tt else waitForFocus p next
  | NeverFocused => hang
  end.

Definition update (fr : Frame) : L (option failure) :=
  r1 <- dispatch
          (fun _ : bool =>
             effect EShouldClose ;; retL (frameClose fr, None))
          false ;;
  if fst r1 then retL (Some RegularTermination)
  else
    r2 <- dispatch
            (fun r : float * bool =>
               u <- getL ;;
               if negb (sizeChanged u) then retL (r, None)
               else
                 modifyL (set_sizeChanged false) ;;
                 a <- liftM (actualScreenScale (framePlatform fr)) ;;
                 retL ((a, true), None))
            (0%float, false) ;;
    whenL (snd (fst r2))
      (u <- getL ;;
       effect (EContextSetSize (width u) (height u) (fst (fst r2)))) ;;
    dispatch
      (fun _ : unit =>
         pollEvents (framePlatform fr) ;;
         waitForFocus (framePlatform fr) (frameFocus fr) ;;
         retL (tt, None))
      tt ;;
    effect EContextUpdate ;;
    retL (frameUpdate fr).

(** The [for] of [loop], over the frames to come.  Past the last of them
    nothing asks for the end: the loop goes on. *)
Fixpoint passes (frs : list Frame) : L (option failure) :=
  match frs with
  | [] => hang
  | fr :: frs' =>
      err <- update fr ;;
      match err with
      | Some e => retL (Some e)
      | None =>
          effect EBindScreenFramebuffer ;;
          match frameBind fr with
          | Some e => retL (Some e)
          | None =>
              dispatch
                (fun _ : unit =>
                   liftM swapBuffers ;; retL (tt, None))
                tt ;;
              passes frs'
          end
      end
  end.

(** [loop]: the passes, then the deferred [glfw.Terminate()]. *)
Definition loop (frs : list Frame) : L (option failure) :=
  err <- passes frs ;;
  dispatch (fun _ : unit => effect ETerminate ;; retL (tt, None)) tt ;;
  retL err.

Definition Run (p : Platform) (w h : Z) (s : float) (t : string)
  (frs : list Frame) : L (option failure) :=
  effect EOpenglInit ;;
  re <- dispatch
          (fun _ : unit =>
             v <- liftM (GetVideoMode p) ;;
             ok <- liftM (setScreenSize p w h s false) ;;
             if negb ok
             then retL (tt, Some (Failed "ui: Fail to set the screen size"))
             else
               modifyL (set_title t) ;;
               effect (EGlfw (CSetTitle t)) ;;
               effect EShow ;;
               wh <- liftM (glfwSize p) ;;
               let x := Z.quot (wrapInt (Width v - fst wh)) 2 in
               let y := Z.quot (wrapInt (Height v - snd wh)) 3 in
               let xy := adjustWindowPosition x y in
               effect (ESetPos (fst xy) (snd xy)) ;;
               retL (tt, None))
          tt ;;
  match snd re with
  | Some e => retL (Some e)
  | None => loop frs
  end.

End FrameLoop.

(** *** Vocabulary of the further properties *)

(** Calls that ask the platform something and change nothing on screen. *)
Definition isQuery (c : Call) : bool :=
  match c with
  | CGlfwScale | CDeviceScale | CGetVideoMode | CGetPos => true
  | _ => false
  end.

(** The window size [glfwSize] computes: the logical size times the user
    scale times the window scale (line 242). *)
Definition windowSize (w h : Z) (s gs : float) : Z * Z :=
  (to_int (of_int w * s * gs)%float, to_int (of_int h * s * gs)%float).

(** The platform calls of an accepted request after the guard: lines
    375-412, for a state [u1] in which the size and the scale are already
    the requested ones.  [n] polls return before the one during which the
    framebuffer-size callback fires. *)
Definition callsAfterGuard (p : Platform) (w h : Z) (fs : bool)
  (u1 : userInterface) (n : nat) : list Call :=
  let v := platVideoMode p in
  [CSwapBuffers; CGetVideoMode] ++
  (if fs
   then
     (if (origPosX u1 <? 0) && (origPosY u1 <? 0) then [CGetPos] else []) ++
     [CSetMonitor true 0 0 (Width v) (Height v) (RefreshRate v)]
   else
     (if (0 <=? origPosX u1) && (0 <=? origPosY u1)
      then [CSetMonitor false (origPosX u1) (origPosY u1) 16 16
              (RefreshRate v)]
      else []) ++
     [CSetFramebufferSizeCallback] ++
     (if (glfwScale u1 =? 0)%float then [CGlfwScale] else []) ++
     [CSetSize (fst (windowSize w h (scale u1) (filledGlfwScale p true u1)))
        (snd (windowSize w h (scale u1) (filledGlfwScale p true u1)))] ++
     repeat CPollEvents (S n) ++
     [CSetTitle (title u1)]).

(** Closures run one after the other, as the main loop runs the ones it
    receives. *)
Fixpoint runAll (fs : list (M unit)) : M unit :=
  match fs with
  | [] => ret tt
  | f :: fs' => f ;; runAll fs'
  end.

(** States reached from [initialize] by calls of [setScreenSize],
    [actualScreenScale], [getScale] and [glfwSize] that return, each on a
    platform that satisfies [ok]. *)
Inductive reachableUI (ok : Platform -> Prop) : userInterface -> Prop :=
| reachUI_initialize : reachableUI ok initialize
| reachUI_setScreenSize p w h s fs u b u' c :
    reachableUI ok u -> ok p ->
    setScreenSize p w h s fs u = Returns b u' c ->
    reachableUI ok u'
| reachUI_actualScreenScale p u a u' c :
    reachableUI ok u -> ok p ->
    actualScreenScale p u = Returns a u' c ->
    reachableUI ok u'
| reachUI_getScale p u a u' c :
    reachableUI ok u -> ok p ->
    getScale p u = Returns a u' c ->
    reachableUI ok u'
| reachUI_glfwSize p u a u' c :
    reachableUI ok u -> ok p ->
    glfwSize p u = Returns a u' c ->
    reachableUI ok u'.

(** The platform has the video mode [v] and the window scale [g]. *)
Definition onDisplay (v : VidMode) (g : float) (p : Platform) : Prop :=
  platVideoMode p = v /\ platGlfwScale p = g.

(** The caches agree with the display and the current size: the window
    scale is unset or [g], the fit scale is unset or the fit scale of the
    current width and height on that display. *)
Definition cachesCoherent (v : VidMode) (g : float) (u : userInterface)
  : Prop :=
  ((glfwScale u =? 0)%float = true \/ glfwScale u = g) /\
  ((fullscreenScale u =? 0)%float = true \/
   fullscreenScale u = fitScale v g (width u) (height u)).

(** *** Vocabulary of the frame loop properties *)

(** The effects of polling and waiting: platform queries, event polls, the
    input update, the focus and close queries and the sleep. *)
Definition isPolling (e : Effect) : bool :=
  match e with
  | EGlfw c => isQuery c ||
               match c with CPollEvents => true | _ => false end
  | EShouldClose | EFocused | ESleep | EInputUpdate _ => true
  | _ => false
  end.

(** The effects that are not the end of the windowing system, and the ones
    that are not a buffer swap. *)
Definition notTerminate (e : Effect) : bool :=
  match e with
  | ETerminate => false
  | _ => true
  end.

Definition notSwap (e : Effect) : bool :=
  match e with
  | EGlfw CSwapBuffers => false
  | _ => true
  end.

(** A result with a log put in front. *)
Definition withLog {A} (l : list Effect) (r : result A) : result A :=
  match r with
  | Done a u l' => Done a u (l ++ l')
  | Panicked msg => Panicked msg
  | Hangs => Hangs
  end.

(** A frame in which the window has the focus, nothing asks for the end
    and nothing fails. *)
Definition quietFrame (p : Platform) : Frame :=
  {| framePlatform := p;
     frameClose := false;
     frameFocus := HasFocus;
     frameUpdate := None;
     frameBind := None |}.

(** A frame that opens with a close request. *)
Definition closingFrame (p : Platform) : Frame :=
  {| framePlatform := p;
     frameClose := true;
     frameFocus := HasFocus;
     frameUpdate := None;
     frameBind := None |}.

(** A frame in which the window has lost the focus and, after the sleep,
    asks to be closed. *)
Definition unfocusedClosingFrame (p : Platform) : Frame :=
  {| framePlatform := p;
     frameClose := false;
     frameFocus := Unfocused true HasFocus;
     frameUpdate := None;
     frameBind := None |}.

(** A frame in which the graphics context fails. *)
Definition failingFrame (p : Platform) (msg : string) : Frame :=
  {| framePlatform := p;
     frameClose := false;
     frameFocus := HasFocus;
     frameUpdate := Some (Failed msg);
     frameBind := None |}.

(** No adjustment of the window position. *)
Definition noAdjust (x y : Z) : Z * Z := (x, y).

(** ** Proof tools *)

Ltac unfold_ui :=
  cbv [setScreenSize actualScreenScale getScale glfwSize swapBuffers
       waitForResize queryGlfwScale queryDeviceScale GetVideoMode GetPos
       isRunning setRunning runOnMainThread RunMainThreadLoop
       SetScreenSize SetScreenScale SetFullscreen ScreenScale IsFullscreen
       bind get ret modify call when panic block].

Ltac split_if :=
  match goal with
  | |- context [if ?b then _ else _] =>
      let E := fresh "E" in destruct b eqn:E; simpl
  | H : context [if ?b then _ else _] |- _ =>
      let E := fresh "E" in destruct b eqn:E; simpl in H
  end.

(** Two float constants are different when [==] tells them apart from a
    third. *)
Lemma float_neq (x y z : float) :
  (x =? z)%float <> (y =? z)%float -> x <> y.
Proof. intros H E. apply H. now rewrite E. Qed.

(** ** The three ways through [setScreenSize] *)

Section Geometry.

Variable p : Platform.

Lemma pollUntilResized_returns (n : nat) (u : userInterface) :
  pollUntilResized n u = Returns tt u (repeat CPollEvents (S n)).
Proof.
  induction n as [|n IH].
  - reflexivity.
  - change (pollUntilResized (S n))
      with (bind (call CPollEvents) (fun _ => pollUntilResized n)).
    unfold bind, call. rewrite IH. reflexivity.
Qed.

(** [actualScreenScale] returns; it moves nothing but the caches, fills
    the device scale when that is zero and, fullscreen with a zero fit
    scale, the window scale and the fit scale. *)
Lemma actualScreenScale_returns (u : userInterface) :
  exists a u' c,
    actualScreenScale p u = Returns a u' c /\
    same_geometry u u' /\
    deviceScale u' = filledDeviceScale p u /\
    glfwScale u' =
      filledGlfwScale p (fullscreen u && (fullscreenScale u =? 0)%float) u /\
    fullscreenScale u' =
      (if fullscreen u && (fullscreenScale u =? 0)%float
       then fitScale (platVideoMode p) (glfwScale u') (width u) (height u)
       else fullscreenScale u) /\
    a = ((if fullscreen u then fullscreenScale u' else scale u)
         * deviceScale u')%float.
Proof.
  unfold_ui.
  unfold filledDeviceScale, filledGlfwScale, fitScale, same_geometry.
  destruct (deviceScale u =? 0)%float eqn:Ed; simpl;
    destruct (fullscreen u) eqn:Ef; simpl;
    try (destruct (fullscreenScale u =? 0)%float eqn:Es; simpl;
         try (destruct (glfwScale u =? 0)%float eqn:Eg; simpl));
    do 3 eexists; (split; [reflexivity|]); simpl;
    rewrite ?Ef, ?Es, ?Eg, ?Ed; simpl; repeat split; reflexivity.
Qed.

Lemma setScreenSize_same u w h s fs :
  sameTuple u w h s fs = true ->
  setScreenSize p w h s fs u = Returns false u [].
Proof.
  unfold sameTuple, setScreenSize, bind, get, ret. intros ->. reflexivity.
Qed.

Lemma setScreenSize_rejected u w h s fs a u1 c1 :
  sameTuple u w h s fs = false ->
  actualScreenScale p (set_scale s u) = Returns a u1 c1 ->
  (to_int (of_int w * a)%float <? minWindowWidth) = true ->
  setScreenSize p w h s fs u = Returns false (set_scale (scale u) u1) c1.
Proof.
  unfold sameTuple, setScreenSize, bind, get, ret, modify.
  intros -> Ha Hlt. rewrite Ha, Hlt. simpl. now rewrite app_nil_r.
Qed.

Lemma setScreenSize_accepted u w h s fs a u1 c1 b u' c :
  sameTuple u w h s fs = false ->
  actualScreenScale p (set_scale s u) = Returns a u1 c1 ->
  (to_int (of_int w * a)%float <? minWindowWidth) = false ->
  setScreenSize p w h s fs u = Returns b u' c ->
  b = true /\
  title u' = title u1 /\ width u' = w /\ height u' = h /\
  scale u' = scale u1 /\ fullscreen u' = fs /\
  funcs u' = funcs u1 /\ running u' = running u1 /\
  sizeChanged u' = true /\
  (origPosX u', origPosY u') = acceptedOrigPos p fs u1 /\
  deviceScale u' = deviceScale u1 /\
  glfwScale u' = filledGlfwScale p (negb fs) u1 /\
  fullscreenScale u' =
    (if negb (width u1 =? w) || negb (height u1 =? h)
     then 0%float else fullscreenScale u1).
Proof.
  unfold sameTuple, setScreenSize, acceptedOrigPos, filledGlfwScale.
  cbv [bind get ret modify call when swapBuffers GetVideoMode GetPos
       waitForResize glfwSize queryGlfwScale].
  intros -> Ha Hge. rewrite Ha, Hge.
  destruct (negb (width u1 =? w) || negb (height u1 =? h)) eqn:Ech;
    destruct fs; simpl;
    repeat split_if;
    try (destruct (platResizeAfter p) as [n|];
         [rewrite pollUntilResized_returns|]; simpl);
    intros H; inversion H; subst; simpl; repeat split; try reflexivity;
    try (rewrite <- surjective_pairing; reflexivity);
    apply orb_false_elim in Ech; destruct Ech as [Ew Eh];
    apply negb_false_iff, Z.eqb_eq in Ew, Eh; assumption.
Qed.


End Geometry.

(** ** Requests that change nothing *)

(** C7: a request whose width, height, scale and fullscreen flag equal the
    current ones (the scale by Go's [==]) returns false, leaves every field
    of the state as it was and makes no platform call. *)
Theorem setScreenSize_same_tuple_noop
  (p : Platform) (u : userInterface) (w h : Z) (s : float) (fs : bool) :
  w = width u -> h = height u -> (scale u =? s)%float = true ->
  fs = fullscreen u ->
  setScreenSize p w h s fs u = Returns false u [].
Proof.
  intros -> -> Hs ->. apply setScreenSize_same.
  unfold sameTuple. rewrite !Z.eqb_refl, Hs, eqb_reflx. reflexivity.
Qed.

Lemma setScreenSize_same_tuple_noop_witness :
  setScreenSize desktop 640 480 1%float false windowed640
  = Returns false windowed640 [].
Proof.
  apply (setScreenSize_same_tuple_noop desktop windowed640 640 480 1%float
           false); reflexivity.
Defined.

(** Repeating the current tuple itself is a no-op as soon as the current
    scale is a number: NaN is the one float that [==] tells apart from
    itself. *)
Lemma setScreenSize_current_tuple_noop (p : Platform) (u : userInterface) :
  is_nan (scale u) = false ->
  setScreenSize p (width u) (height u) (scale u) (fullscreen u) u
  = Returns false u [].
Proof.
  intros Hnan. apply setScreenSize_same.
  unfold sameTuple. rewrite !Z.eqb_refl, eqb_reflx.
  unfold is_nan in Hnan. apply negb_false_iff in Hnan. now rewrite Hnan.
Qed.

(** A NaN scale can be installed while fullscreen, where the guard does not
    read the user scale; the same request is then never the current tuple
    for line 351, and it is carried out again. *)
Example nan_scale_request_is_carried_out_again :
  exists u1 c1 u2 c2,
    setScreenSize desktop 640 480 nan true fullscreen640
    = Returns true u1 c1 /\
    is_nan (scale u1) = true /\
    setScreenSize desktop 640 480 nan true u1 = Returns true u2 c2 /\
    c2 <> [].
Proof.
  do 4 eexists.
  split; [vm_compute; reflexivity|].
  split; [vm_compute; reflexivity|].
  split; [vm_compute; reflexivity|].
  discriminate.
Qed.

(** ** The minimum-width guard *)



(** What a rejected request leaves behind: the state [actualScreenScale]
    produced, with the scale put back, and the platform calls that read
    made. *)
Lemma setScreenSize_rejected_caches
  (p : Platform) (u : userInterface) (w h : Z) (s : float) (fs : bool)
  (a : float) (u1 : userInterface) (c1 : list Call) :
  sameTuple u w h s fs = false ->
  actualScreenScale p (set_scale s u) = Returns a u1 c1 ->
  to_int (of_int w * a)%float < minWindowWidth ->
  exists u',
    setScreenSize p w h s fs u = Returns false u' c1 /\
    deviceScale u' = filledDeviceScale p u /\
    glfwScale u' =
      filledGlfwScale p (fullscreen u && (fullscreenScale u =? 0)%float) u /\
    fullscreenScale u' =
      (if fullscreen u && (fullscreenScale u =? 0)%float
       then fitScale (platVideoMode p) (glfwScale u') (width u) (height u)
       else fullscreenScale u).
Proof.
  intros Esame Ha Hlt. apply Z.ltb_lt in Hlt.
  exists (set_scale (scale u) u1).
  rewrite (setScreenSize_rejected _ _ _ _ _ _ _ _ _ Esame Ha Hlt).
  destruct (actualScreenScale_returns p (set_scale s u))
    as (a' & u1' & c1' & Ha' & _ & Hd & Hg & Hf & _).
  rewrite Ha in Ha'. inversion Ha'; subst a' u1' c1'.
  simpl in *. repeat split; assumption.
Qed.

(** C10: a request rejected by the minimum-width guard can leave the state
    changed.  From [initialize], a 100x100 request is rejected and fills
    [deviceScale]; from the fullscreen state reached by a 640x480 request,
    a 100x480 request is rejected and fills [glfwScale] and
    [fullscreenScale].  Both return false and both have called the
    platform. *)
Theorem rejected_request_fills_caches :
  (exists u',
     setScreenSize desktop 100 100 1%float false initialize
     = Returns false u' [CDeviceScale] /\
     scale u' = scale initialize /\
     (deviceScale initialize =? 0)%float = true /\
     deviceScale u' = 1%float /\
     u' <> initialize) /\
  (exists u',
     fullscreen fullscreen640 = true /\
     setScreenSize desktop 100 480 1%float true fullscreen640
     = Returns false u' [CGlfwScale; CGetVideoMode] /\
     scale u' = scale fullscreen640 /\
     (glfwScale fullscreen640 =? 0)%float = true /\
     glfwScale u' = 1%float /\
     (fullscreenScale fullscreen640 =? 0)%float = true /\
     fullscreenScale u' = 2.25%float /\
     u' <> fullscreen640).
Proof.
  split.
  - eexists. split; [vm_compute; reflexivity|].
    repeat split; try reflexivity.
    intros E. apply (f_equal deviceScale) in E. revert E.
    apply float_neq with (z := 0%float). vm_compute. discriminate.
  - eexists. split; [reflexivity|]. split; [vm_compute; reflexivity|].
    repeat split; try reflexivity.
    intros E. apply (f_equal glfwScale) in E. revert E.
    apply float_neq with (z := 0%float). vm_compute. discriminate.
Qed.

(** ** The public control surface *)

(** C8: while the [running] flag is false, [SetScreenSize],
    [SetScreenScale] and [SetFullscreen] panic instead of returning a
    value. *)
Theorem setters_panic_when_not_running (p : Platform) (u : userInterface) :
  running u = false ->
  (forall w h, SetScreenSize p w h u = Panics "ui: Run is not called yet") /\
  (forall s, SetScreenScale p s u = Panics "ui: Run is not called yet") /\
  (forall fs, SetFullscreen p fs u = Panics "ui: Run is not called yet").
Proof.
  intros Hrun. repeat split; intros;
    unfold SetScreenSize, SetScreenScale, SetFullscreen, isRunning;
    cbv [bind get ret]; rewrite Hrun; reflexivity.
Qed.

Lemma setters_panic_when_not_running_witness :
  running initialize = false /\
  (forall w h,
     SetScreenSize desktop w h initialize
     = Panics "ui: Run is not called yet") /\
  (forall s,
     SetScreenScale desktop s initialize
     = Panics "ui: Run is not called yet") /\
  (forall fs,
     SetFullscreen desktop fs initialize
     = Panics "ui: Run is not called yet").
Proof.
  split; [reflexivity|].
  apply (setters_panic_when_not_running desktop initialize). reflexivity.
Defined.

(** While the loop runs, a setter is [setScreenSize] on the main thread with
    the fields it does not set read from the state. *)
Lemma SetFullscreen_running (p : Platform) (u : userInterface) (fs : bool)
  (b : bool) (u' : userInterface) (c : list Call) :
  running u = true -> funcs u <> None ->
  setScreenSize p (width u) (height u) (scale u) fs u = Returns b u' c ->
  SetFullscreen p fs u = Returns b u' c.
Proof.
  intros Hrun Hq Hs. unfold SetFullscreen, isRunning, runOnMainThread.
  cbv [bind get ret]. rewrite Hrun. simpl.
  destruct (funcs u); [|congruence]. rewrite Hrun, Hs. simpl.
  now rewrite !app_nil_r.
Qed.

(** C9: while the loop runs, [ScreenScale()] returns the [scale] field,
    whatever the fullscreen flag is; it takes no fit scale from the cache,
    computes none, and leaves the state as it was. *)
Theorem ScreenScale_is_user_scale (u : userInterface) :
  running u = true -> funcs u <> None ->
  ScreenScale u = Returns (scale u) u [].
Proof.
  intros Hrun Hq. unfold ScreenScale, isRunning, runOnMainThread.
  cbv [bind get ret]. rewrite Hrun. simpl.
  destruct (funcs u); [rewrite Hrun; reflexivity|congruence].
Qed.

Lemma ScreenScale_is_user_scale_witness :
  running (set_running true fullscreen640) = true /\
  fullscreen (set_running true fullscreen640) = true /\
  ScreenScale (set_running true fullscreen640)
  = Returns 1%float (set_running true fullscreen640) [].
Proof.
  split; [reflexivity|]. split; [reflexivity|].
  apply (ScreenScale_is_user_scale (set_running true fullscreen640)).
  - reflexivity.
  - discriminate.
Defined.

(** In that fullscreen state [getScale] answers the fit scale, 2.25, where
    [ScreenScale] answers the user scale, 1. *)
Example getScale_differs_from_ScreenScale :
  exists u' c,
    getScale desktop (set_running true fullscreen640)
    = Returns 2.25%float u' c.
Proof. do 2 eexists. vm_compute. reflexivity. Qed.

(** Without the loop, the two queries answer their zero value. *)
Lemma queries_when_not_running (u : userInterface) :
  running u = false ->
  ScreenScale u = Returns 0%float u [] /\
  IsFullscreen u = Returns false u [].
Proof.
  intros Hrun. unfold ScreenScale, IsFullscreen, isRunning.
  cbv [bind get ret]. rewrite Hrun. split; reflexivity.
Qed.

(** ** The dispatcher *)

(** With a nil queue, [runOnMainThread] returns nil at once: the closure is
    not run, its captured locals keep their values, the state is as it was
    and the platform is not called. *)
Lemma runOnMainThread_nil_queue
  {R : Type} (f : R -> M (R * error)) (r : R) (u : userInterface) :
  funcs u = None ->
  runOnMainThread f r u = Returns (r, None) u [].
Proof.
  intros Hq. unfold runOnMainThread. cbv [bind get ret]. now rewrite Hq.
Qed.

(** While the loop serves the queue, the closure runs and its result comes
    back. *)
Lemma runOnMainThread_running
  {R : Type} (f : R -> M (R * error)) (r : R) (u : userInterface) :
  funcs u <> None -> running u = true ->
  runOnMainThread f r u = f r u.
Proof.
  intros Hq Hrun. unfold runOnMainThread. cbv [bind get ret].
  destruct (funcs u); [|congruence]. rewrite Hrun.
  destruct (f r u); simpl; reflexivity.
Qed.

(** With an open queue and no loop to receive from it, the send of line
    124 does not complete. *)
Lemma runOnMainThread_without_loop
  {R : Type} (f : R -> M (R * error)) (r : R) (u : userInterface) :
  funcs u <> None -> running u = false ->
  runOnMainThread f r u = Blocks.
Proof.
  intros Hq Hrun. unfold runOnMainThread. cbv [bind get ret block].
  destruct (funcs u); [|congruence]. rewrite Hrun. reflexivity.
Qed.

(** The main loop leaves the queue as [initialize] made it: open. *)
Lemma RunMainThreadLoop_terminated (err : error) (u : userInterface) :
  RunMainThreadLoop [Terminated err] u
  = Returns err (set_running false (set_running true u)) [].
Proof. reflexivity. Qed.

(** C3: once the main loop has ended, the queue is still the open channel
    that [initialize] made, and nothing receives from it: a unit of work
    submitted then is not answered with nil, [runOnMainThread] does not
    return. *)
Theorem runOnMainThread_after_loop_blocks
  {R : Type} (f : R -> M (R * error)) (r : R) (err : error) :
  RunMainThreadLoop [Terminated err] initialize
  = Returns err (afterMainLoop err) [] /\
  running (afterMainLoop err) = false /\
  funcs (afterMainLoop err) = Some MkChan /\
  runOnMainThread f r (afterMainLoop err) = Blocks.
Proof. repeat split. Qed.

(** ** Fullscreen and the remembered position *)

(** What a returning [setScreenSize] does to the fullscreen flag and to the
    remembered position: nothing when it answers false, the transition of
    lines 377-394 when it answers true. *)
Lemma setScreenSize_origPos
  (p : Platform) (u : userInterface) (w h : Z) (s : float) (fs : bool)
  (b : bool) (u' : userInterface) (c : list Call) :
  setScreenSize p w h s fs u = Returns b u' c ->
  (b = false /\ fullscreen u' = fullscreen u /\
   origPosX u' = origPosX u /\ origPosY u' = origPosY u) \/
  (b = true /\ fullscreen u' = fs /\
   (origPosX u', origPosY u') = acceptedOrigPos p fs u).
Proof.
  intros Hret.
  destruct (sameTuple u w h s fs) eqn:Esame.
  { rewrite (setScreenSize_same _ _ _ _ _ _ Esame) in Hret.
    inversion Hret; subst. left. repeat split; reflexivity. }
  destruct (actualScreenScale_returns p (set_scale s u))
    as (a & u1 & c1 & Ha & Hgeo & _).
  destruct Hgeo as (_ & _ & _ & _ & Hf & _ & _ & _ & Hx & Hy).
  simpl in Hf, Hx, Hy.
  destruct (to_int (of_int w * a)%float <? minWindowWidth) eqn:Hlt.
  - rewrite (setScreenSize_rejected _ _ _ _ _ _ _ _ _ Esame Ha Hlt) in Hret.
    inversion Hret; subst. left. simpl. repeat split; assumption.
  - destruct (setScreenSize_accepted _ _ _ _ _ _ _ _ _ _ _ _ Esame Ha Hlt Hret)
      as (Hb & _ & _ & _ & _ & Hfs & _ & _ & _ & Hpos & _).
    right. repeat split; try assumption.
    rewrite Hpos. unfold acceptedOrigPos. now rewrite Hx, Hy.
Qed.



(** A stored position with both coordinates negative is what line 383
    takes for "nothing remembered": the next fullscreen request stores the
    position the platform reports then. *)
Example both_negative_position_is_stored_again :
  fullscreen topLeftFullscreen = true /\
  (origPosX topLeftFullscreen, origPosY topLeftFullscreen) = (-5, -7) /\
  origPosSet topLeftFullscreen = false /\
  exists u' c,
    setScreenSize desktop 640 480 2%float true topLeftFullscreen
    = Returns true u' c /\
    (origPosX u', origPosY u') = (100, 100).
Proof.
  split; [vm_compute; reflexivity|].
  split; [vm_compute; reflexivity|].
  split; [vm_compute; reflexivity|].
  do 2 eexists. split; vm_compute; reflexivity.
Qed.

(** On platforms that report no negative window coordinate, every reachable
    state is either fullscreen with a remembered position or windowed with
    the sentinel. *)
Lemma origPos_tracks_fullscreen_on_nonneg (u : userInterface) :
  reachableOn nonnegWindowPos u ->
  (fullscreen u = true /\ 0 <= origPosX u /\ 0 <= origPosY u) \/
  (fullscreen u = false /\ origPosX u = -1 /\ origPosY u = -1).
Proof.
  induction 1 as [|p w h s fs u b u' c Hreach IH [Hpx Hpy] Hret].
  - right. repeat split; reflexivity.
  - destruct (setScreenSize_origPos _ _ _ _ _ _ _ _ _ Hret)
      as [(_ & Hf & Hx & Hy)|(_ & Hf & Hpos)].
    + rewrite Hf, Hx, Hy. exact IH.
    + unfold acceptedOrigPos in Hpos. rewrite Hf.
      destruct fs.
      * left. split; [reflexivity|].
        destruct IH as [(_ & H0x & H0y)|(_ & Hx & Hy)].
        -- assert (E : (origPosX u <? 0) && (origPosY u <? 0) = false).
           { apply andb_false_iff. left. apply Z.ltb_ge. exact H0x. }
           rewrite E in Hpos. injection Hpos as Ex Ey.
           rewrite Ex, Ey. split; assumption.
        -- rewrite Hx, Hy in Hpos. simpl in Hpos.
           rewrite (surjective_pairing (platWindowPos p)) in Hpos.
           injection Hpos as Ex Ey. rewrite Ex, Ey. split; assumption.
      * right. split; [reflexivity|].
        destruct IH as [(_ & H0x & H0y)|(_ & Hx & Hy)].
        -- assert (E : (0 <=? origPosX u) && (0 <=? origPosY u) = true).
           { apply andb_true_iff. split; apply Z.leb_le; assumption. }
           rewrite E in Hpos. injection Hpos as Ex Ey.
           split; assumption.
        -- rewrite Hx, Hy in Hpos. simpl in Hpos.
           injection Hpos as Ex Ey. split; assumption.
Qed.

Lemma origPosSet_iff_fullscreen_on_nonneg (u : userInterface) :
  reachableOn nonnegWindowPos u ->
  origPosSet u = true <-> fullscreen u = true.
Proof.
  intros Hreach. unfold origPosSet.
  destruct (origPos_tracks_fullscreen_on_nonneg u Hreach)
    as [(Hf & Hx & Hy)|(Hf & Hx & Hy)]; rewrite Hf.
  - apply Z.ltb_ge in Hx. rewrite Hx. simpl. tauto.
  - rewrite Hx, Hy. simpl. split; discriminate.
Qed.

(** C4: with the window hanging over the left edge of the display, so that
    the platform reports the position (-5, 100), entering fullscreen from
    [initialize] and leaving it again reaches a windowed state that still
    holds the position: [origPos] is set and [fullscreen] is false. *)
Theorem origPos_left_set_after_fullscreen_off :
  (exists c1,
     setScreenSize overLeftEdge 640 480 1%float true initialize
     = Returns true leftEdgeFullscreen c1) /\
  (exists c2,
     setScreenSize overLeftEdge 640 480 1%float false leftEdgeFullscreen
     = Returns true leftEdgeWindowed c2) /\
  reachable leftEdgeWindowed /\
  fullscreen leftEdgeWindowed = false /\
  (origPosX leftEdgeWindowed, origPosY leftEdgeWindowed) = (-5, 100) /\
  origPosSet leftEdgeWindowed = true /\
  ~ (origPosSet leftEdgeWindowed = true <-> fullscreen leftEdgeWindowed = true).
Proof.
  assert (H1 : exists c1,
             setScreenSize overLeftEdge 640 480 1%float true initialize
             = Returns true leftEdgeFullscreen c1).
  { eexists. vm_compute. reflexivity. }
  assert (H2 : exists c2,
             setScreenSize overLeftEdge 640 480 1%float false
               leftEdgeFullscreen
             = Returns true leftEdgeWindowed c2).
  { eexists. vm_compute. reflexivity. }
  split; [exact H1|]. split; [exact H2|].
  split.
  { destruct H1 as [c1 H1], H2 as [c2 H2].
    apply (reach_setScreenSize _ overLeftEdge 640 480 1%float false
             leftEdgeFullscreen true leftEdgeWindowed c2); [|exact I|exact H2].
    apply (reach_setScreenSize _ overLeftEdge 640 480 1%float true
             initialize true leftEdgeFullscreen c1);
      [apply reach_initialize|exact I|exact H1]. }
  assert (Hf : fullscreen leftEdgeWindowed = false)
    by (vm_compute; reflexivity).
  assert (Hset : origPosSet leftEdgeWindowed = true)
    by (vm_compute; reflexivity).
  split; [exact Hf|]. split; [vm_compute; reflexivity|].
  split; [exact Hset|].
  rewrite Hf, Hset. intros [H _]. specialize (H eq_refl). discriminate H.
Qed.

(** ** The cached scales *)

(** A returning request that changed the logical size was accepted, and it
    zeroed the fit scale only: the device scale is the one the guard read,
    and a window scale that was filled is kept. *)
Lemma setScreenSize_resize_invalidates
  (p : Platform) (u : userInterface) (w h : Z) (s : float) (fs : bool)
  (b : bool) (u' : userInterface) (c : list Call) :
  setScreenSize p w h s fs u = Returns b u' c ->
  width u' <> width u \/ height u' <> height u ->
  b = true /\ width u' = w /\ height u' = h /\ fullscreen u' = fs /\
  fullscreenScale u' = 0%float /\
  deviceScale u' = filledDeviceScale p u /\
  ((glfwScale u =? 0)%float = false -> glfwScale u' = glfwScale u).
Proof.
  intros Hret Hchg.
  destruct (sameTuple u w h s fs) eqn:Esame.
  { rewrite (setScreenSize_same _ _ _ _ _ _ Esame) in Hret.
    inversion Hret; subst. destruct Hchg as [H|H]; now elim H. }
  destruct (actualScreenScale_returns p (set_scale s u))
    as (a & u1 & c1 & Ha & Hgeo & Hd & Hg & _).
  destruct Hgeo as (_ & Hw & Hh & _).
  simpl in Hw, Hh, Hd, Hg.
  destruct (to_int (of_int w * a)%float <? minWindowWidth) eqn:Hlt.
  { rewrite (setScreenSize_rejected _ _ _ _ _ _ _ _ _ Esame Ha Hlt) in Hret.
    inversion Hret; subst. simpl in Hchg.
    destruct Hchg as [H|H]; elim H; assumption. }
  destruct (setScreenSize_accepted _ _ _ _ _ _ _ _ _ _ _ _ Esame Ha Hlt Hret)
    as (Hb & _ & Hw' & Hh' & _ & Hfs & _ & _ & _ & _ & Hd' & Hg' & Hf').
  repeat split; try assumption.
  - rewrite Hf'.
    destruct (negb (width u1 =? w) || negb (height u1 =? h)) eqn:Ech;
      [reflexivity|].
    apply orb_false_elim in Ech. destruct Ech as [Ew Eh].
    apply negb_false_iff, Z.eqb_eq in Ew, Eh.
    destruct Hchg as [H|H]; elim H; congruence.
  - rewrite Hd'. exact Hd.
  - intros Hnz. rewrite Hg'. unfold filledGlfwScale in *.
    simpl in Hg. rewrite Hnz, andb_false_r in Hg.
    rewrite Hg, Hnz, andb_false_r. reflexivity.
Qed.

(** C2, as stated, fails: resizing the 640x480 window to 800x600 leaves the
    device scale and the window scale at the value read earlier, 1; they
    are not reset to zero. *)
Lemma resize_keeps_device_and_window_scale :
  exists u' c,
    setScreenSize desktop 800 600 1%float false windowed640
    = Returns true u' c /\
    width u' <> width windowed640 /\
    fullscreenScale u' = 0%float /\
    deviceScale u' = 1%float /\ glfwScale u' = 1%float /\
    ~ (fullscreenScale u' = 0%float /\ deviceScale u' = 0%float /\
       glfwScale u' = 0%float).
Proof.
  do 2 eexists. split; [vm_compute; reflexivity|].
  split; [vm_compute; discriminate|].
  repeat split.
  intros (_ & H & _). revert H. simpl.
  apply float_neq with (z := 0%float). vm_compute. discriminate.
Qed.

(** C2, amended: whenever a call of [setScreenSize] changes the logical
    width or height, the cached [fullscreenScale] is zero afterwards;
    [deviceScale] and [glfwScale] are not reset, a value they held (not
    zero) before the call is the value they hold after it. *)
Theorem resize_resets_fullscreenScale_only
  (p : Platform) (u : userInterface) (w h : Z) (s : float) (fs : bool)
  (b : bool) (u' : userInterface) (c : list Call) :
  setScreenSize p w h s fs u = Returns b u' c ->
  width u' <> width u \/ height u' <> height u ->
  fullscreenScale u' = 0%float /\
  ((deviceScale u =? 0)%float = false -> deviceScale u' = deviceScale u) /\
  ((glfwScale u =? 0)%float = false -> glfwScale u' = glfwScale u).
Proof.
  intros Hret Hchg.
  destruct (setScreenSize_resize_invalidates _ _ _ _ _ _ _ _ _ Hret Hchg)
    as (_ & _ & _ & _ & Hf & Hd & Hg).
  repeat split; try assumption.
  intros Hnz. rewrite Hd. unfold filledDeviceScale. now rewrite Hnz.
Qed.

Lemma resize_resets_fullscreenScale_only_witness :
  fullscreenScale
    (stateAfter (setScreenSize desktop 800 600 1%float false windowed640)
       windowed640) = 0%float /\
  ((deviceScale windowed640 =? 0)%float = false ->
   deviceScale
     (stateAfter (setScreenSize desktop 800 600 1%float false windowed640)
        windowed640) = deviceScale windowed640) /\
  ((glfwScale windowed640 =? 0)%float = false ->
   glfwScale
     (stateAfter (setScreenSize desktop 800 600 1%float false windowed640)
        windowed640) = glfwScale windowed640).
Proof.
  apply (resize_resets_fullscreenScale_only desktop windowed640 800 600
           1%float false true _
           [CSwapBuffers; CGetVideoMode; CSetFramebufferSizeCallback;
            CSetSize 800 600; CPollEvents; CPollEvents;
            CSetTitle EmptyString]).
  - vm_compute. reflexivity.
  - left. vm_compute. discriminate.
Defined.

(** ** The scale while fullscreen *)


(** With one device pixel per logical pixel the two agree. *)
Example actualScreenScale_desktop_fullscreen640 :
  exists u' c,
    actualScreenScale desktop fullscreen640 = Returns 2.25%float u' c /\
    specFullscreenActualScale (platVideoMode desktop) (glfwScale u')
      (width fullscreen640) (height fullscreen640) = 2.25%float.
Proof.
  do 2 eexists. split; [vm_compute; reflexivity|]. vm_compute. reflexivity.
Qed.

(** Over the reals, for positive window scale and size, the formula of the
    specification is the fit scale the code computes: the two shapes differ
    by float rounding only, and by the device scale. *)
Lemma specFitScaleR_is_fitScaleR (dw dh ws w h : R) :
  (0 < ws)%R -> (0 < w)%R -> (0 < h)%R ->
  specFitScaleR dw dh ws w h = fitScaleR dw dh ws w h.
Proof.
  intros Hws Hw Hh. unfold specFitScaleR, fitScaleR.
  assert (Hk : (0 < / ws * / w)%R).
  { apply Rmult_lt_0_compat; apply Rinv_0_lt_compat; assumption. }
  assert (HA : (dh / ws / h = dh * (w / h) * (/ ws * / w))%R).
  { field. repeat split; apply Rgt_not_eq; assumption. }
  assert (HD : forall x : R, (x / ws / w = x * (/ ws * / w))%R).
  { intros x. unfold Rdiv. apply Rmult_assoc. }
  rewrite HA, !HD.
  set (A := (dh * (w / h))%R). set (k := (/ ws * / w)%R) in *.
  unfold Rmin.
  destruct (Rle_dec dw A) as [L|L];
    destruct (Rle_dec (dw * k) (A * k)) as [L'|L']; try reflexivity.
  - exfalso. apply L'. apply Rmult_le_compat_r; [lra|exact L].
  - exfalso. apply L. apply Rmult_le_reg_r with (r := k); assumption.
Qed.





(** ** The queue is never closed *)

Lemma setScreenSize_keeps_queue
  (p : Platform) (u : userInterface) (w h : Z) (s : float) (fs : bool)
  (b : bool) (u' : userInterface) (c : list Call) :
  setScreenSize p w h s fs u = Returns b u' c -> funcs u' = funcs u.
Proof.
  intros Hret.
  destruct (sameTuple u w h s fs) eqn:Esame.
  { rewrite (setScreenSize_same _ _ _ _ _ _ Esame) in Hret.
    inversion Hret; subst. reflexivity. }
  destruct (actualScreenScale_returns p (set_scale s u))
    as (a & u1 & c1 & Ha & Hgeo & _).
  destruct Hgeo as (_ & _ & _ & _ & _ & Hq & _). simpl in Hq.
  destruct (to_int (of_int w * a)%float <? minWindowWidth) eqn:Hlt.
  - rewrite (setScreenSize_rejected _ _ _ _ _ _ _ _ _ Esame Ha Hlt) in Hret.
    inversion Hret; subst. exact Hq.
  - destruct (setScreenSize_accepted _ _ _ _ _ _ _ _ _ _ _ _ Esame Ha Hlt Hret)
      as (_ & _ & _ & _ & _ & _ & Hq' & _).
    congruence.
Qed.

(** Every state reached from [initialize] has the open queue. *)
Lemma reachable_keeps_queue (u : userInterface) :
  reachable u -> funcs u = Some MkChan.
Proof.
  induction 1 as [|p w h s fs u b u' c Hreach IH _ Hret].
  - reflexivity.
  - rewrite (setScreenSize_keeps_queue _ _ _ _ _ _ _ _ _ Hret). exact IH.
Qed.

(** ** Further properties of [setScreenSize] *)

(** Reading the answer backwards: true means the request differed from the
    current tuple and passed the guard, false means one of the two did not
    hold. *)
Lemma setScreenSize_true_inv
  (p : Platform) (u : userInterface) (w h : Z) (s : float) (fs : bool)
  (u' : userInterface) (c : list Call) :
  setScreenSize p w h s fs u = Returns true u' c ->
  sameTuple u w h s fs = false /\
  exists a u1 c1,
    actualScreenScale p (set_scale s u) = Returns a u1 c1 /\
    (to_int (of_int w * a)%float <? minWindowWidth) = false.
Proof.
  intros Hret.
  destruct (sameTuple u w h s fs) eqn:Esame.
  { rewrite (setScreenSize_same _ _ _ _ _ _ Esame) in Hret. discriminate. }
  split; [reflexivity|].
  destruct (actualScreenScale_returns p (set_scale s u))
    as (a & u1 & c1 & Ha & _).
  exists a, u1, c1. split; [exact Ha|].
  destruct (to_int (of_int w * a)%float <? minWindowWidth) eqn:Hlt;
    [|reflexivity].
  rewrite (setScreenSize_rejected _ _ _ _ _ _ _ _ _ Esame Ha Hlt) in Hret.
  discriminate.
Qed.

Lemma setScreenSize_false_inv
  (p : Platform) (u : userInterface) (w h : Z) (s : float) (fs : bool)
  (u' : userInterface) (c : list Call) :
  setScreenSize p w h s fs u = Returns false u' c ->
  (sameTuple u w h s fs = true /\ u' = u /\ c = []) \/
  (sameTuple u w h s fs = false /\
   exists a u1,
     actualScreenScale p (set_scale s u) = Returns a u1 c /\
     (to_int (of_int w * a)%float <? minWindowWidth) = true /\
     u' = set_scale (scale u) u1).
Proof.
  intros Hret.
  destruct (sameTuple u w h s fs) eqn:Esame.
  { rewrite (setScreenSize_same _ _ _ _ _ _ Esame) in Hret.
    inversion Hret; subst. left. repeat split; reflexivity. }
  right. split; [reflexivity|].
  destruct (actualScreenScale_returns p (set_scale s u))
    as (a & u1 & c1 & Ha & _).
  destruct (to_int (of_int w * a)%float <? minWindowWidth) eqn:Hlt.
  - rewrite (setScreenSize_rejected _ _ _ _ _ _ _ _ _ Esame Ha Hlt) in Hret.
    inversion Hret; subst. exists a, u1. repeat split; assumption.
  - destruct (setScreenSize_accepted _ _ _ _ _ _ _ _ _ _ _ _ Esame Ha Hlt Hret)
      as (Hb & _). discriminate.
Qed.

(** The calls of [actualScreenScale] are queries. *)
Lemma actualScreenScale_queries (p : Platform) (u : userInterface)
  (a : float) (u' : userInterface) (c : list Call) :
  actualScreenScale p u = Returns a u' c -> forallb isQuery c = true.
Proof.
  unfold_ui.
  destruct (deviceScale u =? 0)%float; simpl;
    destruct (fullscreen u); simpl;
    try (destruct (fullscreenScale u =? 0)%float; simpl;
         try (destruct (glfwScale u =? 0)%float; simpl));
    intros H; inversion H; reflexivity.
Qed.

(** The calls of an accepted request, exactly: those of the guard, then
    [callsAfterGuard]. *)
Lemma setScreenSize_accepted_calls
  (p : Platform) (u : userInterface) (w h : Z) (s : float) (fs : bool)
  (a : float) (u1 : userInterface) (c1 : list Call) (n : nat) :
  sameTuple u w h s fs = false ->
  actualScreenScale p (set_scale s u) = Returns a u1 c1 ->
  (to_int (of_int w * a)%float <? minWindowWidth) = false ->
  fs = true \/ platResizeAfter p = Some n ->
  exists u',
    setScreenSize p w h s fs u
    = Returns true u' (c1 ++ callsAfterGuard p w h fs u1 n).
Proof.
  unfold sameTuple, setScreenSize, callsAfterGuard, windowSize,
    filledGlfwScale.
  cbv [bind get ret modify call when swapBuffers GetVideoMode GetPos
       waitForResize glfwSize queryGlfwScale].
  intros -> Ha Hge Hfs. rewrite Ha, Hge.
  destruct fs; simpl.
  - destruct (negb (width u1 =? w) || negb (height u1 =? h)); simpl;
      destruct ((origPosX u1 <? 0) && (origPosY u1 <? 0)); simpl;
      eexists; reflexivity.
  - destruct Hfs as [Hfs|Hfs]; [discriminate|]. rewrite Hfs.
    destruct (negb (width u1 =? w) || negb (height u1 =? h)) eqn:Ech; simpl;
      [|apply orb_false_elim in Ech; destruct Ech as [Ew Eh];
        apply negb_false_iff, Z.eqb_eq in Ew, Eh];
      destruct ((0 <=? origPosX u1) && (0 <=? origPosY u1)); simpl;
      destruct (glfwScale u1 =? 0)%float eqn:Eg; simpl;
      rewrite pollUntilResized_returns; simpl;
      try rewrite Ew; try rewrite Eh;
      eexists; rewrite <- ?app_assoc; simpl; reflexivity.
Qed.

(** An accepted request for a window, on a platform that never fires the
    framebuffer-size callback, stays in the poll loop of lines 402-410. *)
Lemma setScreenSize_blocks
  (p : Platform) (u : userInterface) (w h : Z) (s : float)
  (a : float) (u1 : userInterface) (c1 : list Call) :
  sameTuple u w h s false = false ->
  actualScreenScale p (set_scale s u) = Returns a u1 c1 ->
  (to_int (of_int w * a)%float <? minWindowWidth) = false ->
  platResizeAfter p = None ->
  setScreenSize p w h s false u = Blocks.
Proof.
  unfold sameTuple, setScreenSize.
  cbv [bind get ret modify call when swapBuffers GetVideoMode GetPos
       waitForResize glfwSize queryGlfwScale block].
  intros -> Ha Hge Hnone. rewrite Ha, Hge, Hnone. simpl.
  destruct (negb (width u1 =? w) || negb (height u1 =? h)); simpl;
    destruct ((0 <=? origPosX u1) && (0 <=? origPosY u1)); simpl;
    destruct (glfwScale u1 =? 0)%float; simpl; reflexivity.
Qed.

(** The fields after a request answered true. *)
Lemma setScreenSize_true_fields
  (p : Platform) (u : userInterface) (w h : Z) (s : float) (fs : bool)
  (u' : userInterface) (c : list Call) :
  setScreenSize p w h s fs u = Returns true u' c ->
  width u' = w /\ height u' = h /\ scale u' = s /\ fullscreen u' = fs /\
  sizeChanged u' = true /\
  title u' = title u /\ funcs u' = funcs u /\ running u' = running u.
Proof.
  intros Hret.
  destruct (setScreenSize_true_inv _ _ _ _ _ _ _ _ Hret)
    as (Esame & a & u1 & c1 & Ha & Hge).
  destruct (actualScreenScale_returns p (set_scale s u))
    as (a' & u1' & c1' & Ha' & Hgeo & _).
  rewrite Ha in Ha'. inversion Ha'; subst a' u1' c1'.
  destruct Hgeo as (Ht & _ & _ & Hs & _ & Hq & Hr & _). simpl in *.
  destruct (setScreenSize_accepted _ _ _ _ _ _ _ _ _ _ _ _ Esame Ha Hge Hret)
    as (_ & Ht' & Hw & Hh & Hs' & Hfs & Hq' & Hr' & Hc & _).
  repeat split; congruence.
Qed.

(** X1: a request answered true is installed: the state holds the requested
    width, height, scale and fullscreen flag, [sizeChanged] is set, and the
    title, the queue and the running flag are the ones from before. *)
Theorem setScreenSize_true_installs_request
  (p : Platform) (u : userInterface) (w h : Z) (s : float) (fs : bool)
  (u' : userInterface) (c : list Call) :
  setScreenSize p w h s fs u = Returns true u' c ->
  width u' = w /\ height u' = h /\ scale u' = s /\ fullscreen u' = fs /\
  sizeChanged u' = true /\
  title u' = title u /\ funcs u' = funcs u /\ running u' = running u.
Proof. exact (setScreenSize_true_fields p u w h s fs u' c). Qed.

Lemma setScreenSize_true_installs_request_witness :
  width windowed640 = 640 /\ height windowed640 = 480 /\
  scale windowed640 = 1%float /\ fullscreen windowed640 = false /\
  sizeChanged windowed640 = true /\
  title windowed640 = title initialize /\
  funcs windowed640 = funcs initialize /\
  running windowed640 = running initialize.
Proof.
  apply (setScreenSize_true_installs_request desktop initialize 640 480
           1%float false windowed640
           [CDeviceScale; CSwapBuffers; CGetVideoMode;
            CSetFramebufferSizeCallback; CGlfwScale; CSetSize 640 480;
            CPollEvents; CPollEvents; CSetTitle EmptyString]).
  vm_compute. reflexivity.
Defined.

(** The fields and the calls after a request answered false. *)
Lemma setScreenSize_false_frame
  (p : Platform) (u : userInterface) (w h : Z) (s : float) (fs : bool)
  (u' : userInterface) (c : list Call) :
  setScreenSize p w h s fs u = Returns false u' c ->
  same_geometry u u' /\ forallb isQuery c = true.
Proof.
  intros Hret.
  destruct (setScreenSize_false_inv _ _ _ _ _ _ _ _ Hret)
    as [(_ & -> & ->)|(_ & a & u1 & Ha & _ & ->)].
  - split; [|reflexivity]. unfold same_geometry. repeat split; reflexivity.
  - split; [|exact (actualScreenScale_queries _ _ _ _ _ Ha)].
    destruct (actualScreenScale_returns p (set_scale s u))
      as (a' & u1' & c1' & Ha' & Hgeo & _).
    rewrite Ha in Ha'. inversion Ha'; subst a' u1' c1'.
    unfold same_geometry in *. simpl in *.
    destruct Hgeo as (Ht & Hw & Hh & _ & Hf & Hq & Hr & Hc & Hx & Hy).
    repeat split; assumption.
Qed.

(** X2: a request answered false has changed nothing but the three cached
    scales, and every platform call it made was a query: no buffer swap, no
    monitor or size change, no poll, no title. *)
Theorem setScreenSize_false_only_queries
  (p : Platform) (u : userInterface) (w h : Z) (s : float) (fs : bool)
  (u' : userInterface) (c : list Call) :
  setScreenSize p w h s fs u = Returns false u' c ->
  same_geometry u u' /\ forallb isQuery c = true.
Proof. exact (setScreenSize_false_frame p u w h s fs u' c). Qed.

Lemma setScreenSize_false_only_queries_witness :
  same_geometry fullscreen640
    (stateAfter (setScreenSize desktop 100 480 1%float true fullscreen640)
       fullscreen640) /\
  forallb isQuery [CGlfwScale; CGetVideoMode] = true.
Proof.
  apply (setScreenSize_false_only_queries desktop fullscreen640 100 480
           1%float true).
  vm_compute. reflexivity.
Defined.

(** X3: an accepted request is settled: asked again, on any platform, with
    a scale that is a number, it is answered false without a platform call
    and without touching the state. *)
Theorem setScreenSize_repeated_is_noop
  (p q : Platform) (u : userInterface) (w h : Z) (s : float) (fs : bool)
  (u' : userInterface) (c : list Call) :
  setScreenSize p w h s fs u = Returns true u' c ->
  is_nan s = false ->
  setScreenSize q w h s fs u' = Returns false u' [].
Proof.
  intros Hret Hnan.
  destruct (setScreenSize_true_fields _ _ _ _ _ _ _ _ Hret)
    as (Hw & Hh & Hs & Hfs & _).
  apply setScreenSize_same. unfold sameTuple.
  rewrite Hw, Hh, Hs, Hfs, !Z.eqb_refl, eqb_reflx.
  unfold is_nan in Hnan. apply negb_false_iff in Hnan. now rewrite Hnan.
Qed.

Lemma setScreenSize_repeated_is_noop_witness :
  setScreenSize hidpi 640 480 1%float false windowed640
  = Returns false windowed640 [].
Proof.
  apply (setScreenSize_repeated_is_noop desktop hidpi initialize 640 480
           1%float false windowed640
           [CDeviceScale; CSwapBuffers; CGetVideoMode;
            CSetFramebufferSizeCallback; CGlfwScale; CSetSize 640 480;
            CPollEvents; CPollEvents; CSetTitle EmptyString]).
  - vm_compute. reflexivity.
  - reflexivity.
Defined.

(** A request answered true came with a platform on which it could return:
    it asked for fullscreen, or the framebuffer-size callback fires. *)
Lemma setScreenSize_true_could_return
  (p : Platform) (u : userInterface) (w h : Z) (s : float) (fs : bool)
  (u' : userInterface) (c : list Call) :
  setScreenSize p w h s fs u = Returns true u' c ->
  exists n, fs = true \/ platResizeAfter p = Some n.
Proof.
  intros Hret.
  destruct fs; [exists O; left; reflexivity|].
  destruct (platResizeAfter p) as [n|] eqn:En; [exists n; right; reflexivity|].
  destruct (setScreenSize_true_inv _ _ _ _ _ _ _ _ Hret)
    as (Esame & a & u1 & c1 & Ha & Hge).
  rewrite (setScreenSize_blocks _ _ _ _ _ _ _ _ Esame Ha Hge En) in Hret.
  discriminate.
Qed.

(** The calls of a request answered true, with the state the guard left. *)
Lemma setScreenSize_true_calls
  (p : Platform) (u : userInterface) (w h : Z) (s : float) (fs : bool)
  (u' : userInterface) (c : list Call) :
  setScreenSize p w h s fs u = Returns true u' c ->
  exists a u1 c1 n,
    actualScreenScale p (set_scale s u) = Returns a u1 c1 /\
    (fs = true \/ platResizeAfter p = Some n) /\
    c = c1 ++ callsAfterGuard p w h fs u1 n.
Proof.
  intros Hret.
  destruct (setScreenSize_true_inv _ _ _ _ _ _ _ _ Hret)
    as (Esame & a & u1 & c1 & Ha & Hge).
  destruct (setScreenSize_true_could_return _ _ _ _ _ _ _ _ Hret)
    as (n & Hn).
  destruct (setScreenSize_accepted_calls _ _ _ _ _ _ _ _ _ n Esame Ha Hge Hn)
    as (u'' & Hret').
  rewrite Hret in Hret'. inversion Hret'; subst.
  exists a, u1, c1, n. repeat split; assumption.
Qed.

(** X4: the hang the minimum-width guard is there to avoid.  A request for
    a window that passes the guard, on a platform that never fires the
    framebuffer-size callback, does not return; and this is the only way
    [setScreenSize] fails to return: it never panics, and when it blocks
    the request was for a window, had passed the guard and the callback
    never fires. *)
Theorem setScreenSize_blocks_iff_callback_never_fires
  (p : Platform) (u : userInterface) (w h : Z) (s : float) (fs : bool) :
  (forall msg, setScreenSize p w h s fs u <> Panics msg) /\
  (setScreenSize p w h s fs u = Blocks <->
   fs = false /\ platResizeAfter p = None /\
   sameTuple u w h s fs = false /\
   exists a u1 c1,
     actualScreenScale p (set_scale s u) = Returns a u1 c1 /\
     minWindowWidth <= to_int (of_int w * a)%float).
Proof.
  destruct (sameTuple u w h s fs) eqn:Esame.
  { rewrite (setScreenSize_same _ _ _ _ _ _ Esame).
    split; [discriminate|]. split; [discriminate|].
    intros (_ & _ & H & _). discriminate. }
  destruct (actualScreenScale_returns p (set_scale s u))
    as (a & u1 & c1 & Ha & _).
  destruct (to_int (of_int w * a)%float <? minWindowWidth) eqn:Hlt.
  { rewrite (setScreenSize_rejected _ _ _ _ _ _ _ _ _ Esame Ha Hlt).
    split; [discriminate|]. split; [discriminate|].
    intros (_ & _ & _ & a' & u1' & c1' & Ha' & Hge).
    rewrite Ha in Ha'. inversion Ha'; subst.
    apply Z.ltb_lt in Hlt. lia. }
  destruct fs.
  - destruct (setScreenSize_accepted_calls _ _ _ _ _ _ _ _ _ O Esame Ha Hlt
                (or_introl eq_refl)) as (u' & ->).
    split; [discriminate|]. split; [discriminate|].
    intros (H & _). discriminate.
  - destruct (platResizeAfter p) as [n|] eqn:En.
    + destruct (setScreenSize_accepted_calls _ _ _ _ _ _ _ _ _ n Esame Ha Hlt
                  (or_intror En)) as (u' & ->).
      split; [discriminate|]. split; [discriminate|].
      intros (_ & H & _). discriminate.
    + rewrite (setScreenSize_blocks _ _ _ _ _ _ _ _ Esame Ha Hlt En).
      split; [discriminate|]. split; [|reflexivity].
      intros _. repeat split.
      exists a, u1, c1. split; [exact Ha|]. apply Z.ltb_ge. exact Hlt.
Qed.

(** X5: an accepted request swaps the buffers once, after nothing but
    queries and before any call that changes the window (lines 373-375). *)
Theorem accepted_request_swaps_buffers_first
  (p : Platform) (u : userInterface) (w h : Z) (s : float) (fs : bool)
  (u' : userInterface) (c : list Call) :
  setScreenSize p w h s fs u = Returns true u' c ->
  exists pre post,
    c = pre ++ CSwapBuffers :: post /\
    forallb isQuery pre = true /\
    ~ In CSwapBuffers post.
Proof.
  intros Hret.
  destruct (setScreenSize_true_calls _ _ _ _ _ _ _ _ Hret)
    as (a & u1 & c1 & n & Ha & _ & ->).
  exists c1. eexists. split; [reflexivity|].
  split; [exact (actualScreenScale_queries _ _ _ _ _ Ha)|].
  unfold callsAfterGuard.
  destruct fs.
  - destruct ((origPosX u1 <? 0) && (origPosY u1 <? 0)); simpl;
      intuition discriminate.
  - intros [H|H]; [discriminate|]. rewrite !in_app_iff in H.
    destruct H as [H|[H|[H|[H|[H|H]]]]]; simpl in H.
    + destruct ((0 <=? origPosX u1) && (0 <=? origPosY u1)); simpl in H;
        intuition discriminate.
    + intuition discriminate.
    + destruct (glfwScale u1 =? 0)%float; simpl in H; intuition discriminate.
    + intuition discriminate.
    + destruct H as [H|H]; [discriminate|].
      apply repeat_spec in H. discriminate.
    + intuition discriminate.
Qed.

Lemma accepted_request_swaps_buffers_first_witness :
  exists pre post,
    [CDeviceScale; CSwapBuffers; CGetVideoMode;
     CSetFramebufferSizeCallback; CGlfwScale; CSetSize 640 480;
     CPollEvents; CPollEvents; CSetTitle EmptyString]
    = pre ++ CSwapBuffers :: post /\
    forallb isQuery pre = true /\
    ~ In CSwapBuffers post.
Proof.
  apply (accepted_request_swaps_buffers_first desktop initialize 640 480
           1%float false windowed640).
  vm_compute. reflexivity.
Defined.

(** The state the guard leaves: the requested scale and everything else
    that is not a cache as before. *)
Lemma guard_state
  (p : Platform) (u : userInterface) (s a : float) (u1 : userInterface)
  (c1 : list Call) :
  actualScreenScale p (set_scale s u) = Returns a u1 c1 ->
  scale u1 = s /\ title u1 = title u /\
  origPosX u1 = origPosX u /\ origPosY u1 = origPosY u.
Proof.
  intros Ha.
  destruct (actualScreenScale_returns p (set_scale s u))
    as (a' & u1' & c1' & Ha' & Hgeo & _).
  rewrite Ha in Ha'. inversion Ha'; subst a' u1' c1'.
  destruct Hgeo as (Ht & _ & _ & Hs & _ & _ & _ & _ & Hx & Hy).
  simpl in *. repeat split; assumption.
Qed.



(** X7: an accepted request for fullscreen ends by attaching the window to
    the primary monitor at the size and refresh rate of its video mode;
    before that it only queries the platform and swaps the buffers: it
    neither resizes the window nor waits for a callback. *)
Theorem fullscreen_request_attaches_to_monitor
  (p : Platform) (u : userInterface) (w h : Z) (s : float)
  (u' : userInterface) (c : list Call) :
  setScreenSize p w h s true u = Returns true u' c ->
  exists pre,
    c = pre ++
        [CSetMonitor true 0 0 (Width (platVideoMode p))
           (Height (platVideoMode p)) (RefreshRate (platVideoMode p))] /\
    forall x, In x pre -> isQuery x = true \/ x = CSwapBuffers.
Proof.
  intros Hret.
  destruct (setScreenSize_true_calls _ _ _ _ _ _ _ _ Hret)
    as (a & u1 & c1 & n & Ha & _ & ->).
  pose proof (actualScreenScale_queries _ _ _ _ _ Ha) as Hq.
  rewrite forallb_forall in Hq.
  unfold callsAfterGuard.
  destruct ((origPosX u1 <? 0) && (origPosY u1 <? 0)).
  - exists (c1 ++ [CSwapBuffers; CGetVideoMode; CGetPos]).
    split; [rewrite <- app_assoc; reflexivity|].
    intros x Hx. apply in_app_iff in Hx. destruct Hx as [Hx|Hx].
    + left. apply Hq. exact Hx.
    + simpl in Hx. destruct Hx as [<-|[<-|[<-|[]]]]; auto.
  - exists (c1 ++ [CSwapBuffers; CGetVideoMode]).
    split; [rewrite <- app_assoc; reflexivity|].
    intros x Hx. apply in_app_iff in Hx. destruct Hx as [Hx|Hx].
    + left. apply Hq. exact Hx.
    + simpl in Hx. destruct Hx as [<-|[<-|[]]]; auto.
Qed.

Lemma fullscreen_request_attaches_to_monitor_witness :
  exists pre,
    [CDeviceScale; CSwapBuffers; CGetVideoMode; CGetPos;
     CSetMonitor true 0 0 1920 1080 60]
    = pre ++
      [CSetMonitor true 0 0 (Width (platVideoMode desktop))
         (Height (platVideoMode desktop))
         (RefreshRate (platVideoMode desktop))] /\
    forall x, In x pre -> isQuery x = true \/ x = CSwapBuffers.
Proof.
  apply (fullscreen_request_attaches_to_monitor desktop initialize 640 480
           1%float fullscreen640).
  vm_compute. reflexivity.
Defined.

(** X8: fullscreen on, then off, puts the window back.  From a state with
    no remembered position, on a platform that reports no negative window
    coordinate, an accepted request for fullscreen remembers the reported
    position, and the next accepted request for a window detaches the
    window from the monitor at that position and forgets it. *)
Theorem fullscreen_round_trip_restores_position
  (p q : Platform) (u : userInterface)
  (w h : Z) (s : float) (u1 : userInterface) (c1 : list Call)
  (w' h' : Z) (s' : float) (u2 : userInterface) (c2 : list Call) :
  origPosX u < 0 -> origPosY u < 0 -> nonnegWindowPos p ->
  setScreenSize p w h s true u = Returns true u1 c1 ->
  setScreenSize q w' h' s' false u1 = Returns true u2 c2 ->
  (origPosX u1, origPosY u1) = platWindowPos p /\
  In (CSetMonitor false (fst (platWindowPos p)) (snd (platWindowPos p))
        16 16 (RefreshRate (platVideoMode q))) c2 /\
  origPosX u2 = -1 /\ origPosY u2 = -1.
Proof.
  intros Hx Hy [Hpx Hpy] Hon Hoff.
  assert (Hpos1 : (origPosX u1, origPosY u1) = platWindowPos p).
  { destruct (setScreenSize_origPos _ _ _ _ _ _ _ _ _ Hon)
      as [(Hb & _)|(_ & _ & Hpos)]; [discriminate|].
    rewrite Hpos. unfold acceptedOrigPos.
    apply Z.ltb_lt in Hx, Hy. rewrite Hx, Hy. reflexivity. }
  assert (Hx1 : origPosX u1 = fst (platWindowPos p))
    by (rewrite <- Hpos1; reflexivity).
  assert (Hy1 : origPosY u1 = snd (platWindowPos p))
    by (rewrite <- Hpos1; reflexivity).
  assert (Eok : (0 <=? origPosX u1) && (0 <=? origPosY u1) = true).
  { rewrite Hx1, Hy1. apply andb_true_iff. split; apply Z.leb_le; assumption. }
  split; [exact Hpos1|]. split.
  - destruct (setScreenSize_true_calls _ _ _ _ _ _ _ _ Hoff)
      as (a & v1 & d1 & n & Ha & _ & ->).
    destruct (guard_state _ _ _ _ _ _ Ha) as (_ & _ & Hvx & Hvy).
    apply in_app_iff. right. unfold callsAfterGuard.
    rewrite Hvx, Hvy, Eok, Hx1, Hy1. simpl. tauto.
  - destruct (setScreenSize_origPos _ _ _ _ _ _ _ _ _ Hoff)
      as [(Hb & _)|(_ & _ & Hpos)]; [discriminate|].
    unfold acceptedOrigPos in Hpos. rewrite Eok in Hpos.
    injection Hpos as Ex Ey. split; assumption.
Qed.

Lemma fullscreen_round_trip_restores_position_witness :
  (origPosX fullscreen640, origPosY fullscreen640) = platWindowPos desktop /\
  In (CSetMonitor false (fst (platWindowPos desktop))
        (snd (platWindowPos desktop)) 16 16
        (RefreshRate (platVideoMode hidpi)))
     [CGlfwScale; CGetVideoMode; CSwapBuffers; CGetVideoMode;
      CSetMonitor false 100 100 16 16 60; CSetFramebufferSizeCallback;
      CSetSize 640 480; CPollEvents; CPollEvents; CSetTitle EmptyString] /\
  origPosX
    (stateAfter (setScreenSize hidpi 640 480 1%float false fullscreen640)
       fullscreen640) = -1 /\
  origPosY
    (stateAfter (setScreenSize hidpi 640 480 1%float false fullscreen640)
       fullscreen640) = -1.
Proof.
  apply (fullscreen_round_trip_restores_position desktop hidpi initialize
           640 480 1%float fullscreen640
           [CDeviceScale; CSwapBuffers; CGetVideoMode; CGetPos;
            CSetMonitor true 0 0 1920 1080 60]
           640 480 1%float).
  - reflexivity.
  - reflexivity.
  - split; discriminate.
  - vm_compute. reflexivity.
  - vm_compute. reflexivity.
Defined.

(** ** The caches on a fixed display *)

(** [getScale] and [glfwSize], like [actualScreenScale_returns]. *)
Lemma getScale_returns (p : Platform) (u : userInterface) :
  exists a u' c,
    getScale p u = Returns a u' c /\
    same_geometry u u' /\
    deviceScale u' = deviceScale u /\
    glfwScale u' =
      filledGlfwScale p (fullscreen u && (fullscreenScale u =? 0)%float) u /\
    fullscreenScale u' =
      (if fullscreen u && (fullscreenScale u =? 0)%float
       then fitScale (platVideoMode p) (glfwScale u') (width u) (height u)
       else fullscreenScale u) /\
    a = (if fullscreen u then fullscreenScale u' else scale u).
Proof.
  unfold_ui. unfold filledGlfwScale, fitScale, same_geometry.
  destruct (fullscreen u) eqn:Ef; simpl;
    try (destruct (fullscreenScale u =? 0)%float eqn:Es; simpl;
         try (destruct (glfwScale u =? 0)%float eqn:Eg; simpl));
    do 3 eexists; (split; [reflexivity|]); simpl;
    rewrite ?Ef, ?Es, ?Eg; simpl; repeat split; reflexivity.
Qed.

Lemma glfwSize_returns (p : Platform) (u : userInterface) :
  exists u' c,
    glfwSize p u
    = Returns (windowSize (width u) (height u) (scale u) (glfwScale u')) u' c /\
    same_geometry u u' /\
    deviceScale u' = deviceScale u /\
    glfwScale u' = filledGlfwScale p true u /\
    fullscreenScale u' = fullscreenScale u /\
    c = (if (glfwScale u =? 0)%float then [CGlfwScale] else []).
Proof.
  unfold_ui. unfold filledGlfwScale, windowSize, same_geometry.
  destruct (glfwScale u =? 0)%float eqn:Eg; simpl;
    [exists (set_glfwScale (platGlfwScale p) u), [CGlfwScale]
    |exists u, []];
    (split; [reflexivity|]); simpl; repeat split; reflexivity.
Qed.

(** One read keeps the caches coherent with the display. *)
Lemma cachesCoherent_read
  (v : VidMode) (g : float) (p : Platform) (u u' : userInterface)
  (fillG fillF : bool) :
  onDisplay v g p -> cachesCoherent v g u ->
  (fillF = true -> fillG = true) ->
  width u' = width u -> height u' = height u ->
  glfwScale u' = filledGlfwScale p fillG u ->
  fullscreenScale u' =
    (if fillF
     then fitScale (platVideoMode p) (glfwScale u') (width u) (height u)
     else fullscreenScale u) ->
  cachesCoherent v g u'.
Proof.
  intros [Hv Hg] [HcG HcF] Hfill Hw Hh HG HF.
  assert (HG' : fillG = true -> glfwScale u' = g).
  { intros ->. rewrite HG. unfold filledGlfwScale. simpl.
    destruct (glfwScale u =? 0)%float eqn:E; [exact Hg|].
    destruct HcG as [H|H]; [discriminate|exact H]. }
  unfold cachesCoherent. rewrite Hw, Hh. split.
  - destruct fillG; [right; apply HG'; reflexivity|].
    rewrite HG. unfold filledGlfwScale. simpl. exact HcG.
  - destruct fillF.
    + right. rewrite HF, (HG' (Hfill eq_refl)), Hv. reflexivity.
    + rewrite HF. exact HcF.
Qed.

Lemma cachesCoherent_set_scale (v : VidMode) (g s : float)
  (u : userInterface) :
  cachesCoherent v g u -> cachesCoherent v g (set_scale s u).
Proof. intros H. exact H. Qed.

Lemma cachesCoherent_actualScreenScale
  (v : VidMode) (g : float) (p : Platform) (u : userInterface)
  (a : float) (u' : userInterface) (c : list Call) :
  onDisplay v g p -> cachesCoherent v g u ->
  actualScreenScale p u = Returns a u' c ->
  cachesCoherent v g u'.
Proof.
  intros Hp Hc Ha.
  destruct (actualScreenScale_returns p u)
    as (a' & u1' & c1' & Ha' & Hgeo & _ & HG & HF & _).
  rewrite Ha in Ha'. inversion Ha'; subst a' u1' c1'.
  destruct Hgeo as (_ & Hw & Hh & _).
  exact (cachesCoherent_read v g p u u' _ _ Hp Hc (fun H => H) Hw Hh HG HF).
Qed.

(** X9: on a display whose video mode and window scale do not change, the
    caches never go stale.  In every state reached from [initialize] by
    [setScreenSize], [actualScreenScale], [getScale] and [glfwSize], the
    cached window scale is unset or the display's, and the cached fit scale
    is unset or the fit scale of the current width and height. *)
Theorem caches_stay_coherent
  (v : VidMode) (g : float) (u : userInterface) :
  reachableUI (onDisplay v g) u -> cachesCoherent v g u.
Proof.
  induction 1 as [|p w h s fs u b u' c _ IH Hp Hret
                  |p u a u' c _ IH Hp Hret
                  |p u a u' c _ IH Hp Hret
                  |p u a u' c _ IH Hp Hret].
  - split; left; reflexivity.
  - destruct b.
    + destruct (setScreenSize_true_inv _ _ _ _ _ _ _ _ Hret)
        as (Esame & a & u1 & c1 & Ha & Hge).
      pose proof (cachesCoherent_actualScreenScale v g p _ _ _ _ Hp
                    (cachesCoherent_set_scale v g s u IH) Ha) as [H1G H1F].
      destruct (setScreenSize_accepted _ _ _ _ _ _ _ _ _ _ _ _
                  Esame Ha Hge Hret)
        as (_ & _ & Hw & Hh & _ & _ & _ & _ & _ & _ & _ & HG & HF).
      unfold cachesCoherent. rewrite Hw, Hh, HG, HF. split.
      * unfold filledGlfwScale.
        destruct (negb fs && (glfwScale u1 =? 0)%float);
          [right; apply Hp|exact H1G].
      * destruct (negb (width u1 =? w) || negb (height u1 =? h)) eqn:Ech;
          [left; reflexivity|].
        apply orb_false_elim in Ech. destruct Ech as [Ew Eh].
        apply negb_false_iff, Z.eqb_eq in Ew, Eh.
        rewrite <- Ew, <- Eh. exact H1F.
    + destruct (setScreenSize_false_inv _ _ _ _ _ _ _ _ Hret)
        as [(_ & -> & _)|(_ & a & u1 & Ha & _ & ->)]; [exact IH|].
      exact (cachesCoherent_actualScreenScale v g p _ _ _ _ Hp
               (cachesCoherent_set_scale v g s u IH) Ha).
  - exact (cachesCoherent_actualScreenScale v g p _ _ _ _ Hp IH Hret).
  - destruct (getScale_returns p u)
      as (a' & u1' & c1' & Ha' & Hgeo & _ & HG & HF & _).
    rewrite Hret in Ha'. inversion Ha'; subst a' u1' c1'.
    destruct Hgeo as (_ & Hw & Hh & _).
    exact (cachesCoherent_read v g p u u' _ _ Hp IH (fun H => H) Hw Hh HG HF).
  - destruct (glfwSize_returns p u)
      as (u1' & c1' & Ha' & Hgeo & _ & HG & HF & _).
    rewrite Hret in Ha'. inversion Ha'; subst u1' c1'.
    destruct Hgeo as (_ & Hw & Hh & _).
    apply (cachesCoherent_read v g p u u' true false Hp IH); try assumption.
    discriminate.
Qed.

Lemma caches_stay_coherent_witness :
  cachesCoherent (mkVidMode 1920 1080 60) 1%float
    (stateAfter (actualScreenScale desktop fullscreen640) fullscreen640).
Proof.
  apply (caches_stay_coherent (mkVidMode 1920 1080 60) 1%float).
  apply (reachUI_actualScreenScale _ desktop fullscreen640 2.25%float _
           [CGlfwScale; CGetVideoMode]).
  - apply (reachUI_setScreenSize _ desktop 640 480 1%float true initialize
             true fullscreen640
             [CDeviceScale; CSwapBuffers; CGetVideoMode; CGetPos;
              CSetMonitor true 0 0 1920 1080 60]).
    + apply reachUI_initialize.
    + split; reflexivity.
    + vm_compute. reflexivity.
  - split; reflexivity.
  - vm_compute. reflexivity.
Defined.

(** X10: once [actualScreenScale] has left a non-zero device scale and,
    in fullscreen, a non-zero fit scale, reading again gives the same
    value on any platform, without a platform call and without touching
    the state. *)
Theorem actualScreenScale_second_read_is_free
  (p q : Platform) (u : userInterface) (a : float) (u1 : userInterface)
  (c1 : list Call) :
  actualScreenScale p u = Returns a u1 c1 ->
  (deviceScale u1 =? 0)%float = false ->
  (fullscreen u = true -> (fullscreenScale u1 =? 0)%float = false) ->
  actualScreenScale q u1 = Returns a u1 [].
Proof.
  intros Ha Hd Hf.
  destruct (actualScreenScale_returns p u)
    as (a' & u1' & c1' & Ha' & Hgeo & _ & _ & _ & Hval).
  rewrite Ha in Ha'. injection Ha' as Ea Eu Ec. subst u1' c1'.
  destruct Hgeo as (_ & _ & _ & Hs & Hfs & _).
  rewrite Ea, Hval. unfold_ui. rewrite Hd. simpl. rewrite Hfs.
  destruct (fullscreen u); simpl.
  - rewrite (Hf eq_refl). reflexivity.
  - rewrite Hs. reflexivity.
Qed.

Lemma actualScreenScale_second_read_is_free_witness :
  actualScreenScale hidpi
    (stateAfter (actualScreenScale desktop fullscreen640) fullscreen640)
  = Returns 2.25%float
      (stateAfter (actualScreenScale desktop fullscreen640) fullscreen640) [].
Proof.
  apply (actualScreenScale_second_read_is_free desktop hidpi fullscreen640
           2.25%float _ [CGlfwScale; CGetVideoMode]).
  - vm_compute. reflexivity.
  - vm_compute. reflexivity.
  - intros _. vm_compute. reflexivity.
Defined.

(** In fullscreen the guard reads the fit scale: the value and the calls of
    [actualScreenScale] do not depend on the user scale. *)
Lemma actualScreenScale_fullscreen_ignores_scale
  (p : Platform) (u : userInterface) (s s' : float) :
  fullscreen u = true ->
  exists a c u1 u1',
    actualScreenScale p (set_scale s u) = Returns a u1 c /\
    actualScreenScale p (set_scale s' u) = Returns a u1' c.
Proof.
  intros Hf. unfold_ui. simpl.
  destruct (deviceScale u =? 0)%float; simpl; rewrite Hf; simpl;
    destruct (fullscreenScale u =? 0)%float; simpl;
    try (destruct (glfwScale u =? 0)%float; simpl);
    do 4 eexists; split; reflexivity.
Qed.

(** X11: while the window is fullscreen the minimum-width guard does not
    look at the requested scale.  Two requests that differ in the scale
    only, both different from the current tuple, get the same answer. *)
Theorem fullscreen_guard_ignores_requested_scale
  (p : Platform) (u : userInterface) (w h : Z) (s s' : float) (fs : bool)
  (b : bool) (u' : userInterface) (c : list Call) :
  fullscreen u = true ->
  sameTuple u w h s fs = false -> sameTuple u w h s' fs = false ->
  setScreenSize p w h s fs u = Returns b u' c ->
  exists u'' c', setScreenSize p w h s' fs u = Returns b u'' c'.
Proof.
  intros Hf Es Es' Hret.
  destruct (actualScreenScale_fullscreen_ignores_scale p u s s' Hf)
    as (a & c1 & u1 & u1' & Ha & Ha').
  destruct (to_int (of_int w * a)%float <? minWindowWidth) eqn:Hlt.
  - rewrite (setScreenSize_rejected _ _ _ _ _ _ _ _ _ Es Ha Hlt) in Hret.
    inversion Hret; subst.
    rewrite (setScreenSize_rejected _ _ _ _ _ _ _ _ _ Es' Ha' Hlt). eauto.
  - destruct (setScreenSize_accepted _ _ _ _ _ _ _ _ _ _ _ _ Es Ha Hlt Hret)
      as (-> & _).
    destruct (setScreenSize_true_could_return _ _ _ _ _ _ _ _ Hret)
      as (n & Hn).
    destruct (setScreenSize_accepted_calls _ _ _ _ _ _ _ _ _ n Es' Ha' Hlt Hn)
      as (u'' & Hret').
    eauto.
Qed.

Lemma fullscreen_guard_ignores_requested_scale_witness :
  exists u'' c',
    setScreenSize desktop 640 480 nan true fullscreen640
    = Returns true u'' c'.
Proof.
  apply (fullscreen_guard_ignores_requested_scale desktop fullscreen640
           640 480 2%float nan true true
           (stateAfter (setScreenSize desktop 640 480 2%float true
                          fullscreen640) fullscreen640)
           [CGlfwScale; CGetVideoMode; CSwapBuffers; CGetVideoMode;
            CSetMonitor true 0 0 1920 1080 60]).
  - reflexivity.
  - reflexivity.
  - reflexivity.
  - vm_compute. reflexivity.
Defined.

(** ** The setters and the queries while the loop runs *)

(** While the loop runs and the queue is open, a setter is [setScreenSize]
    on the main thread, with the fields it does not set read from the
    state. *)
Lemma SetScreenSize_dispatched (p : Platform) (u : userInterface) (w h : Z) :
  running u = true -> funcs u <> None ->
  SetScreenSize p w h u = setScreenSize p w h (scale u) (fullscreen u) u.
Proof.
  intros Hrun Hq. unfold SetScreenSize, isRunning, runOnMainThread.
  cbv [bind get ret]. rewrite Hrun. simpl.
  destruct (funcs u); [|congruence]. rewrite Hrun.
  destruct (setScreenSize p w h (scale u) (fullscreen u) u); simpl;
    rewrite ?app_nil_r; reflexivity.
Qed.

Lemma SetScreenScale_dispatched (p : Platform) (u : userInterface)
  (s : float) :
  running u = true -> funcs u <> None ->
  SetScreenScale p s u = setScreenSize p (width u) (height u) s (fullscreen u) u.
Proof.
  intros Hrun Hq. unfold SetScreenScale, isRunning, runOnMainThread.
  cbv [bind get ret]. rewrite Hrun. simpl.
  destruct (funcs u); [|congruence]. rewrite Hrun.
  destruct (setScreenSize p (width u) (height u) s (fullscreen u) u); simpl;
    rewrite ?app_nil_r; reflexivity.
Qed.

Lemma SetFullscreen_dispatched (p : Platform) (u : userInterface)
  (fs : bool) :
  running u = true -> funcs u <> None ->
  SetFullscreen p fs u = setScreenSize p (width u) (height u) (scale u) fs u.
Proof.
  intros Hrun Hq. unfold SetFullscreen, isRunning, runOnMainThread.
  cbv [bind get ret]. rewrite Hrun. simpl.
  destruct (funcs u); [|congruence]. rewrite Hrun.
  destruct (setScreenSize p (width u) (height u) (scale u) fs u); simpl;
    rewrite ?app_nil_r; reflexivity.
Qed.

(** Whatever [setScreenSize] answers, a field whose current value was
    requested keeps it. *)
Lemma setScreenSize_keeps_requested
  (p : Platform) (u : userInterface) (w h : Z) (s : float) (fs : bool)
  (b : bool) (u' : userInterface) (c : list Call) :
  setScreenSize p w h s fs u = Returns b u' c ->
  (w = width u -> width u' = width u) /\
  (h = height u -> height u' = height u) /\
  (s = scale u -> scale u' = scale u) /\
  (fs = fullscreen u -> fullscreen u' = fullscreen u).
Proof.
  intros Hret. destruct b.
  - destruct (setScreenSize_true_fields _ _ _ _ _ _ _ _ Hret)
      as (Hw & Hh & Hs & Hfs & _).
    repeat split; congruence.
  - destruct (setScreenSize_false_frame _ _ _ _ _ _ _ _ Hret)
      as ((_ & Hw & Hh & Hs & Hfs & _) & _).
    repeat split; intros _; assumption.
Qed.

(** X12: each setter leaves alone what it does not set.  While the loop
    runs, [SetScreenSize] keeps the scale and the fullscreen flag,
    [SetScreenScale] keeps the size and the fullscreen flag, and
    [SetFullscreen] keeps the size and the scale, whether the request is
    accepted or not. *)
Theorem setters_keep_the_other_fields (p : Platform) (u : userInterface) :
  running u = true -> funcs u <> None ->
  (forall w h b u' c,
     SetScreenSize p w h u = Returns b u' c ->
     scale u' = scale u /\ fullscreen u' = fullscreen u) /\
  (forall s b u' c,
     SetScreenScale p s u = Returns b u' c ->
     width u' = width u /\ height u' = height u /\
     fullscreen u' = fullscreen u) /\
  (forall fs b u' c,
     SetFullscreen p fs u = Returns b u' c ->
     width u' = width u /\ height u' = height u /\ scale u' = scale u).
Proof.
  intros Hrun Hq. repeat split.
  all: first [ rewrite (SetScreenSize_dispatched p u _ _ Hrun Hq) in H
             | rewrite (SetScreenScale_dispatched p u _ Hrun Hq) in H
             | rewrite (SetFullscreen_dispatched p u _ Hrun Hq) in H ];
    destruct (setScreenSize_keeps_requested _ _ _ _ _ _ _ _ _ H)
      as (Hw & Hh & Hs & Hfs); auto.
Qed.

Lemma setters_keep_the_other_fields_witness :
  running (set_running true windowed640) = true /\
  (forall w h b u' c,
     SetScreenSize desktop w h (set_running true windowed640)
     = Returns b u' c ->
     scale u' = scale (set_running true windowed640) /\
     fullscreen u' = fullscreen (set_running true windowed640)) /\
  (forall s b u' c,
     SetScreenScale desktop s (set_running true windowed640)
     = Returns b u' c ->
     width u' = width (set_running true windowed640) /\
     height u' = height (set_running true windowed640) /\
     fullscreen u' = fullscreen (set_running true windowed640)) /\
  (forall fs b u' c,
     SetFullscreen desktop fs (set_running true windowed640)
     = Returns b u' c ->
     width u' = width (set_running true windowed640) /\
     height u' = height (set_running true windowed640) /\
     scale u' = scale (set_running true windowed640)).
Proof.
  split; [reflexivity|].
  apply (setters_keep_the_other_fields desktop
           (set_running true windowed640)).
  - reflexivity.
  - discriminate.
Defined.

(** X13: the two queries never panic, never block on an open queue and
    never touch the state or the platform: [IsFullscreen()] is the
    fullscreen flag while the loop runs and false otherwise, and
    [ScreenScale()] is the user scale while the loop runs and 0
    otherwise. *)
Theorem queries_report_without_effect (u : userInterface) :
  funcs u <> None ->
  IsFullscreen u = Returns (running u && fullscreen u) u [] /\
  ScreenScale u = Returns (if running u then scale u else 0%float) u [].
Proof.
  intros Hq. unfold IsFullscreen, ScreenScale, isRunning, runOnMainThread.
  cbv [bind get ret].
  destruct (running u) eqn:Hrun; simpl.
  - destruct (funcs u); [|congruence]. rewrite Hrun. split; reflexivity.
  - split; reflexivity.
Qed.

Lemma queries_report_without_effect_witness :
  IsFullscreen fullscreen640
  = Returns (running fullscreen640 && fullscreen fullscreen640)
      fullscreen640 [] /\
  ScreenScale fullscreen640
  = Returns (if running fullscreen640 then scale fullscreen640 else 0%float)
      fullscreen640 [].
Proof.
  apply (queries_report_without_effect fullscreen640). discriminate.
Defined.

(** ** The main loop *)

(** Sequencing is associative, on the value, the state and the calls. *)
Lemma bind_assoc {A B C : Type} (m : M A) (k : A -> M B) (k' : B -> M C)
  (u : userInterface) :
  bind (bind m k) k' u = bind m (fun x => bind (k x) k') u.
Proof.
  unfold bind. destruct (m u) as [a u1 c1| |]; try reflexivity.
  destruct (k a u1) as [b u2 c2| |]; try reflexivity.
  destruct (k' b u2) as [d u3 c3| |]; try reflexivity.
  now rewrite app_assoc.
Qed.

Lemma bind_ext {A B : Type} (m : M A) (k k' : A -> M B)
  (u : userInterface) :
  (forall a u1, k a u1 = k' a u1) -> bind m k u = bind m k' u.
Proof.
  intros H. unfold bind. destruct (m u) as [a u1 c1| |]; try reflexivity.
  now rewrite H.
Qed.

Lemma mainLoop_submitted_then_terminated
  (fs : list (M unit)) (err : error) (rest : list received)
  (u : userInterface) :
  mainLoop (map Submitted fs ++ Terminated err :: rest) u
  = bind (runAll fs) (fun _ => ret err) u.
Proof.
  revert u. induction fs as [|f fs IH]; intros u.
  - reflexivity.
  - cbn [map app mainLoop runAll].
    rewrite bind_assoc. apply bind_ext. intros _ u1. apply IH.
Qed.

(** X14: the main loop runs the closures it receives one after the other,
    in the order received, with the running flag set; when the termination
    value arrives it clears the flag and returns that value, and what is
    sent after it is never looked at. *)
Theorem RunMainThreadLoop_runs_in_order
  (fs : list (M unit)) (err : error) (rest : list received)
  (u : userInterface) :
  RunMainThreadLoop (map Submitted fs ++ Terminated err :: rest) u
  = (setRunning true ;; runAll fs ;; setRunning false ;; ret err) u.
Proof.
  unfold RunMainThreadLoop. apply bind_ext. intros _ u1.
  unfold bind. rewrite mainLoop_submitted_then_terminated.
  unfold bind, ret, setRunning, modify.
  destruct (runAll fs u1) as [x u2 c2| |]; try reflexivity.
  simpl. rewrite !app_nil_r. reflexivity.
Qed.

Lemma mainLoop_without_termination
  (fs : list (M unit)) (u : userInterface)
  (a : error) (u' : userInterface) (c : list Call) :
  mainLoop (map Submitted fs) u <> Returns a u' c.
Proof.
  revert u a u' c. induction fs as [|f fs IH]; intros u a u' c.
  - discriminate.
  - cbn [map mainLoop]. unfold bind.
    destruct (f u) as [x u1 c1| |]; try discriminate.
    destruct (mainLoop (map Submitted fs) u1) as [e u2 c2| |] eqn:E;
      try discriminate.
    exfalso. exact (IH u1 e u2 c2 E).
Qed.

(** X15: without a termination value the main loop does not return,
    whatever closures it is sent. *)
Theorem RunMainThreadLoop_needs_termination
  (fs : list (M unit)) (u : userInterface)
  (a : error) (u' : userInterface) (c : list Call) :
  RunMainThreadLoop (map Submitted fs) u <> Returns a u' c.
Proof.
  unfold RunMainThreadLoop, setRunning, modify, bind.
  destruct (mainLoop (map Submitted fs) (set_running true u))
    as [e u2 c2| |] eqn:E; try discriminate.
  exfalso. exact (mainLoop_without_termination fs _ e u2 c2 E).
Qed.

(** ** The frame loop *)

Ltac unfold_frame :=
  cbv [dispatch pollEvents update loop Run
       bindL retL getL modifyL effect hang whenL liftM].

(** The session fields the dispatcher reads. *)
Lemma same_geometry_trans (u u1 u2 : userInterface) :
  same_geometry u u1 -> same_geometry u1 u2 -> same_geometry u u2.
Proof.
  unfold same_geometry. intuition congruence.
Qed.

Lemma same_geometry_refl (u : userInterface) : same_geometry u u.
Proof. unfold same_geometry. repeat split; reflexivity. Qed.

Lemma dispatch_running
  {R : Type} (f : R -> L (R * option failure)) (r : R) (u : userInterface) :
  funcs u <> None -> running u = true ->
  dispatch f r u = f r u.
Proof.
  intros Hq Hrun. unfold dispatch, bindL, getL.
  destruct (funcs u); [|congruence]. rewrite Hrun.
  destruct (f r u); reflexivity.
Qed.

(** [pollEvents] returns, moves nothing but the caches and only polls. *)
Lemma pollEvents_done (p : Platform) (u : userInterface) :
  exists u' l,
    pollEvents p u = Done tt u' l /\
    same_geometry u u' /\ forallb isPolling l = true.
Proof.
  unfold pollEvents, bindL, effect, getL, whenL, modifyL, retL, liftM,
    queryGlfwScale, bind, call, ret.
  destruct (glfwScale u =? 0)%float; simpl.
  - destruct (getScale_returns p (set_glfwScale (platGlfwScale p) u))
      as (a & u' & c & Hg & Hgeo & _).
    rewrite Hg. simpl. do 2 eexists. split; [reflexivity|].
    split; [exact Hgeo|].
    simpl. rewrite forallb_app. simpl. rewrite andb_true_r.
    revert Hg. unfold_ui. simpl.
    destruct (fullscreen u); simpl;
      try (destruct (fullscreenScale u =? 0)%float; simpl;
           try (destruct (platGlfwScale p =? 0)%float; simpl));
      intros H; inversion H; reflexivity.
  - destruct (getScale_returns p u) as (a & u' & c & Hg & Hgeo & _).
    rewrite Hg. simpl. do 2 eexists. split; [reflexivity|].
    split; [exact Hgeo|].
    simpl. rewrite forallb_app. simpl. rewrite andb_true_r.
    revert Hg. unfold_ui.
    destruct (fullscreen u); simpl;
      try (destruct (fullscreenScale u =? 0)%float; simpl;
           try (destruct (glfwScale u =? 0)%float; simpl));
      intros H; inversion H; reflexivity.
Qed.

(** The wait for the focus hangs or returns, having moved nothing but the
    caches and having only polled. *)
Lemma waitForFocus_done (p : Platform) (sc : focusScript)
  (u : userInterface) :
  waitForFocus p sc u = Hangs \/
  exists u' l,
    waitForFocus p sc u = Done tt u' l /\
    same_geometry u u' /\ forallb isPolling l = true.
Proof.
  revert u. induction sc as [|closeRequested next IH|]; intros u.
  - right. exists u, [EFocused]. repeat split; reflexivity.
  - cbn [waitForFocus]. unfold bindL, effect.
    destruct (pollEvents_done p u) as (u1 & l1 & Hp & Hgeo1 & Hl1).
    rewrite Hp. destruct closeRequested.
    + right. do 2 eexists. split; [reflexivity|]. split; [exact Hgeo1|].
      simpl. rewrite !forallb_app, Hl1. reflexivity.
    + destruct (IH u1) as [Hh|(u2 & l2 & Hw & Hgeo2 & Hl2)].
      * left. unfold retL. simpl. rewrite Hh. reflexivity.
      * right. unfold retL. simpl. rewrite Hw.
        do 2 eexists. split; [reflexivity|].
        split; [exact (same_geometry_trans _ _ _ Hgeo1 Hgeo2)|].
        simpl. rewrite forallb_app, Hl1. simpl. exact Hl2.
  - left. reflexivity.
Qed.

(** One pass of [update] that does not open with a close request: the
    pending size change goes to the graphics context, the events are
    polled, the graphics context is updated. *)
Lemma update_not_closing (fr : Frame) (u : userInterface) :
  funcs u <> None -> running u = true -> frameClose fr = false ->
  exists a u1 c1,
    actualScreenScale (framePlatform fr) (set_sizeChanged false u)
    = Returns a u1 c1 /\
    (update fr u = Hangs \/
     exists u' lp,
       update fr u
       = Done (frameUpdate fr) u'
           ([EShouldClose] ++
            (if sizeChanged u
             then map EGlfw c1 ++ [EContextSetSize (width u) (height u) a]
             else []) ++
            lp ++ [EContextUpdate]) /\
       forallb isPolling lp = true /\
       same_geometry (set_sizeChanged false u) u').
Proof.
  intros Hq Hrun Hclose.
  destruct (actualScreenScale_returns (framePlatform fr)
              (set_sizeChanged false u))
    as (a & u1 & c1 & Ha & Hgeo1 & _).
  exists a, u1, c1. split; [exact Ha|].
  pose (um := if sizeChanged u then u1 else u).
  assert (Hgm : same_geometry (set_sizeChanged false u) um).
  { unfold um. destruct (sizeChanged u) eqn:Hsc; [exact Hgeo1|].
    unfold same_geometry. simpl. rewrite Hsc. repeat split; reflexivity. }
  assert (Hqm : funcs um <> None).
  { destruct Hgm as (_ & _ & _ & _ & _ & Hf & _). simpl in Hf. congruence. }
  assert (Hrm : running um = true).
  { destruct Hgm as (_ & _ & _ & _ & _ & _ & Hr & _). simpl in Hr.
    congruence. }
  destruct (pollEvents_done (framePlatform fr) um)
    as (u2 & l2 & Hp & Hgeo2 & Hl2).
  destruct (waitForFocus_done (framePlatform fr) (frameFocus fr) u2)
    as [Hh|(u3 & l3 & Hw & Hgeo3 & Hl3)].
  - left. unfold update, dispatch, bindL, getL, effect, retL, whenL,
      modifyL, liftM.
    destruct (funcs u) eqn:Ef; [|congruence]. rewrite Hrun, Hclose. simpl.
    rewrite Ef, Hrun.
    destruct (sizeChanged u) eqn:Hsc; simpl.
    + rewrite Ha. simpl.
      unfold um in *. destruct (funcs u1); [|congruence].
      rewrite Hrm, Hp, Hh. reflexivity.
    + unfold um in *. rewrite Ef, Hrun, Hp, Hh. reflexivity.
  - right. exists u3, (l2 ++ l3). split; [|split].
    + unfold update, dispatch, bindL, getL, effect, retL, whenL,
        modifyL, liftM.
      destruct (funcs u) eqn:Ef; [|congruence]. rewrite Hrun, Hclose. simpl.
      rewrite Ef, Hrun.
      destruct (sizeChanged u) eqn:Hsc; simpl.
      * rewrite Ha. simpl.
        destruct Hgeo1 as (_ & Hw1 & Hh1 & _). simpl in Hw1, Hh1.
        unfold um in *. destruct (funcs u1); [|congruence].
        rewrite Hrm, Hp, Hw. simpl. rewrite Hw1, Hh1.
        rewrite !app_nil_r, <- !app_assoc. reflexivity.
      * unfold um in *. rewrite Ef, Hrun, Hp, Hw. simpl.
        rewrite !app_nil_r, <- !app_assoc. reflexivity.
    + rewrite forallb_app, Hl2, Hl3. reflexivity.
    + exact (same_geometry_trans _ _ _ Hgm
               (same_geometry_trans _ _ _ Hgeo2 Hgeo3)).
Qed.

Lemma forallb_weaken {A : Type} (f g : A -> bool) (l : list A) :
  (forall x, f x = true -> g x = true) ->
  forallb f l = true -> forallb g l = true.
Proof.
  intros H. induction l as [|x l IH]; simpl; [reflexivity|].
  intros Hl. apply andb_true_iff in Hl. destruct Hl as [Hx Hl].
  now rewrite (H x Hx), (IH Hl).
Qed.

Lemma forallb_map_EGlfw (f : Effect -> bool) (c : list Call) :
  (forall x, f (EGlfw x) = true) -> forallb f (map EGlfw c) = true.
Proof.
  intros H. induction c as [|x c IH]; simpl; [reflexivity|].
  now rewrite H, IH.
Qed.

Lemma forallb_map_queries (f : Effect -> bool) (c : list Call) :
  (forall x, isQuery x = true -> f (EGlfw x) = true) ->
  forallb isQuery c = true -> forallb f (map EGlfw c) = true.
Proof.
  intros H. induction c as [|x c IH]; simpl; [reflexivity|].
  intros Hl. apply andb_true_iff in Hl. destruct Hl as [Hx Hl].
  now rewrite (H x Hx), (IH Hl).
Qed.

Lemma isPolling_notTerminate (e : Effect) :
  isPolling e = true -> notTerminate e = true.
Proof. destruct e; simpl; try reflexivity; discriminate. Qed.

Lemma isPolling_notSwap (e : Effect) :
  isPolling e = true -> notSwap e = true.
Proof.
  destruct e as [c| | | | | | | | | | |]; simpl; try reflexivity.
  destruct c; simpl; try reflexivity; discriminate.
Qed.

Lemma isQuery_notSwap (c : Call) :
  isQuery c = true -> notSwap (EGlfw c) = true.
Proof. destruct c; simpl; try reflexivity; discriminate. Qed.

(** A pass of [update] that opens with a close request. *)
Lemma update_closing (fr : Frame) (u : userInterface) :
  funcs u <> None -> running u = true -> frameClose fr = true ->
  update fr u = Done (Some RegularTermination) u [EShouldClose].
Proof.
  intros Hq Hrun Hclose.
  unfold update, dispatch, bindL, getL, effect, retL.
  destruct (funcs u); [|congruence]. rewrite Hrun, Hclose. reflexivity.
Qed.

(** What every pass of [update] keeps, and what it logs. *)
Lemma update_done (fr : Frame) (u : userInterface)
  (e : option failure) (u' : userInterface) (l : list Effect) :
  funcs u <> None -> running u = true ->
  update fr u = Done e u' l ->
  funcs u' = funcs u /\ running u' = running u /\
  forallb notTerminate l = true /\
  (e = Some RegularTermination /\ frameClose fr = true \/
   e = frameUpdate fr /\ frameClose fr = false /\
   exists l0, l = l0 ++ [EContextUpdate] /\ forallb notSwap l0 = true).
Proof.
  intros Hq Hrun Hret.
  destruct (frameClose fr) eqn:Hclose.
  - rewrite (update_closing fr u Hq Hrun Hclose) in Hret.
    inversion Hret; subst. repeat split. left. split; reflexivity.
  - destruct (update_not_closing fr u Hq Hrun Hclose)
      as (a & u1 & c1 & Ha & [Hh|(u2 & lp & Hu & Hlp & Hgeo)]).
    { rewrite Hh in Hret. discriminate. }
    rewrite Hu in Hret. inversion Hret; subst e u' l. clear Hret.
    destruct Hgeo as (_ & _ & _ & _ & _ & Hf & Hr & _). simpl in Hf, Hr.
    pose proof (actualScreenScale_queries _ _ _ _ _ Ha) as Hc1.
    split; [exact Hf|]. split; [exact Hr|]. split.
    + simpl. rewrite !forallb_app.
      rewrite (forallb_weaken _ _ _ isPolling_notTerminate Hlp).
      destruct (sizeChanged u); simpl; [|reflexivity].
      rewrite forallb_app, (forallb_map_EGlfw notTerminate c1); reflexivity.
    + right. split; [reflexivity|]. split; [reflexivity|].
      exists ([EShouldClose] ++
              (if sizeChanged u
               then map EGlfw c1 ++ [EContextSetSize (width u) (height u) a]
               else []) ++ lp).
      split; [rewrite <- !app_assoc; reflexivity|].
      simpl. rewrite !forallb_app.
      rewrite (forallb_weaken _ _ _ isPolling_notSwap Hlp).
      destruct (sizeChanged u); simpl; [|reflexivity].
      rewrite forallb_app,
        (forallb_map_queries notSwap c1 isQuery_notSwap Hc1).
      reflexivity.
Qed.

(** The buffer swap at the end of a pass. *)
Lemma dispatch_swapBuffers (u : userInterface) :
  funcs u <> None -> running u = true ->
  dispatch (fun _ : unit => bindL (liftM swapBuffers)
                              (fun _ => retL (tt, @None failure))) tt u
  = Done (tt, None) u [EGlfw CSwapBuffers].
Proof.
  intros Hq Hrun. rewrite (dispatch_running _ _ _ Hq Hrun). reflexivity.
Qed.

(** One step of the [for] of [loop]. *)
Lemma passes_step (fr : Frame) (frs : list Frame) (u : userInterface)
  (e : option failure) (u1 : userInterface) (l1 : list Effect) :
  funcs u1 <> None -> running u1 = true ->
  update fr u = Done e u1 l1 ->
  passes (fr :: frs) u
  = match e with
    | Some x => Done (Some x) u1 l1
    | None =>
        match frameBind fr with
        | Some x => Done (Some x) u1 (l1 ++ [EBindScreenFramebuffer])
        | None =>
            withLog (l1 ++ [EBindScreenFramebuffer; EGlfw CSwapBuffers])
              (passes frs u1)
        end
    end.
Proof.
  intros Hq Hrun Hu. cbn [passes]. unfold bindL at 1. rewrite Hu.
  destruct e as [x|].
  - unfold retL. now rewrite app_nil_r.
  - unfold bindL at 1. unfold effect at 1.
    destruct (frameBind fr) as [x|].
    + reflexivity.
    + unfold bindL at 1. rewrite (dispatch_swapBuffers u1 Hq Hrun).
      destruct (passes frs u1) as [e2 u2 l2| |]; simpl; try reflexivity.
      rewrite <- app_assoc. reflexivity.
Qed.

Lemma passes_done (frs : list Frame) (u : userInterface)
  (e : option failure) (u' : userInterface) (l : list Effect) :
  funcs u <> None -> running u = true ->
  passes frs u = Done e u' l ->
  e <> None /\ funcs u' = funcs u /\ running u' = running u /\
  forallb notTerminate l = true.
Proof.
  revert u e u' l. induction frs as [|fr frs IH]; intros u e u' l Hq Hrun Hret.
  - discriminate.
  - destruct (update fr u) as [e1 u1 l1| |] eqn:Hu;
      try (cbn [passes] in Hret; unfold bindL in Hret; rewrite Hu in Hret;
           discriminate).
    destruct (update_done fr u e1 u1 l1 Hq Hrun Hu) as (Hf & Hr & Hl & _).
    assert (Hq1 : funcs u1 <> None) by congruence.
    assert (Hr1 : running u1 = true) by congruence.
    rewrite (passes_step fr frs u e1 u1 l1 Hq1 Hr1 Hu) in Hret.
    destruct e1 as [x|].
    + inversion Hret; subst. repeat split; try assumption. discriminate.
    + destruct (frameBind fr) as [x|].
      * inversion Hret; subst. repeat split; try assumption; try discriminate.
        rewrite forallb_app, Hl. reflexivity.
      * destruct (passes frs u1) as [e2 u2 l2| |] eqn:Hp; try discriminate.
        simpl in Hret. inversion Hret; subst.
        destruct (IH u1 e u' l2 Hq1 Hr1 Hp) as (He & Hf2 & Hr2 & Hl2).
        repeat split; try congruence.
        rewrite !forallb_app, Hl, Hl2. reflexivity.
Qed.

(** X16: [loop] never returns nil, and on every way out it has ended the
    windowing system exactly once, as the last thing it did. *)
Theorem loop_terminates_glfw_once
  (frs : list Frame) (u : userInterface)
  (e : option failure) (u' : userInterface) (l : list Effect) :
  funcs u <> None -> running u = true ->
  loop frs u = Done e u' l ->
  e <> None /\
  exists l0, l = l0 ++ [ETerminate] /\ forallb notTerminate l0 = true.
Proof.
  intros Hq Hrun Hret. unfold loop in Hret. unfold bindL at 1 in Hret.
  destruct (passes frs u) as [e1 u1 l1| |] eqn:Hp; try discriminate.
  destruct (passes_done frs u e1 u1 l1 Hq Hrun Hp) as (He & Hf & Hr & Hl).
  assert (Hq1 : funcs u1 <> None) by congruence.
  assert (Hr1 : running u1 = true) by congruence.
  unfold bindL at 1 in Hret.
  rewrite (dispatch_running _ _ _ Hq1 Hr1) in Hret. simpl in Hret.
  inversion Hret; subst. split; [exact He|].
  exists l1. split; [reflexivity|exact Hl].
Qed.

Lemma loop_terminates_glfw_once_witness :
  Some RegularTermination <> None /\
  exists l0,
    [EShouldClose; ETerminate] = l0 ++ [ETerminate] /\
    forallb notTerminate l0 = true.
Proof.
  apply (loop_terminates_glfw_once [closingFrame desktop]
           (set_running true windowed640) (Some RegularTermination)
           (set_running true windowed640)).
  - discriminate.
  - reflexivity.
  - vm_compute. reflexivity.
Defined.

(** X17: a pass of [update] that does not open with a close request uses
    up the pending size change.  Afterwards [sizeChanged] is false; when
    it was set, the graphics context was told the logical size and the
    actual screen scale, and when it was not set the graphics context was
    not told any size. *)
Theorem update_hands_size_change_to_context
  (fr : Frame) (u : userInterface)
  (e : option failure) (u' : userInterface) (l : list Effect) :
  funcs u <> None -> running u = true -> frameClose fr = false ->
  update fr u = Done e u' l ->
  sizeChanged u' = false /\
  width u' = width u /\ height u' = height u /\
  (sizeChanged u = true ->
   exists a u1 c1,
     actualScreenScale (framePlatform fr) (set_sizeChanged false u)
     = Returns a u1 c1 /\
     In (EContextSetSize (width u) (height u) a) l) /\
  (sizeChanged u = false ->
   forall w h a, ~ In (EContextSetSize w h a) l).
Proof.
  intros Hq Hrun Hclose Hret.
  destruct (update_not_closing fr u Hq Hrun Hclose)
    as (a & u1 & c1 & Ha & [Hh|(u2 & lp & Hu & Hlp & Hgeo)]).
  { rewrite Hh in Hret. discriminate. }
  rewrite Hu in Hret. inversion Hret; subst e u' l. clear Hret.
  destruct Hgeo as (_ & Hw & Hh & _ & _ & _ & _ & Hsc & _).
  simpl in Hw, Hh, Hsc.
  split; [exact Hsc|]. split; [exact Hw|]. split; [exact Hh|]. split.
  - intros Hset. exists a, u1, c1. split; [exact Ha|].
    rewrite Hset. simpl. right.
    apply in_app_iff. left. apply in_app_iff. right. simpl. tauto.
  - intros Hunset w h a' Hin. rewrite Hunset in Hin.
    simpl in Hin. destruct Hin as [Hin|Hin]; [discriminate|].
    apply in_app_iff in Hin. destruct Hin as [Hin|Hin].
    + rewrite forallb_forall in Hlp. specialize (Hlp _ Hin). discriminate.
    + simpl in Hin. destruct Hin as [Hin|[]]. discriminate.
Qed.

Lemma update_hands_size_change_to_context_witness :
  sizeChanged
    (stateAfter (setScreenSize desktop 640 480 1%float false initialize)
       initialize) = true /\
  exists u' l,
    update (quietFrame desktop) (set_running true windowed640)
    = Done None u' l /\
    sizeChanged u' = false /\
    In (EContextSetSize 640 480 1%float) l.
Proof.
  split; [vm_compute; reflexivity|].
  do 2 eexists. split; [vm_compute; reflexivity|].
  destruct (update_hands_size_change_to_context (quietFrame desktop)
              (set_running true windowed640) None _ _
              ltac:(discriminate) eq_refl eq_refl
              ltac:(vm_compute; reflexivity))
    as (Hsc & _).
  split; [exact Hsc|]. simpl. tauto.
Defined.

(** X18: a close request seen while [update] waits for the focus does not
    end that pass.  The graphics context is still updated and the buffers
    are swapped; the loop ends with [RegularTermination] when the next pass
    asks the window again. *)
Theorem close_during_focus_wait_ends_next_pass
  (fr fr' : Frame) (rest : list Frame) (next : focusScript)
  (u : userInterface) :
  funcs u <> None -> running u = true ->
  frameClose fr = false -> frameFocus fr = Unfocused true next ->
  frameUpdate fr = None -> frameBind fr = None ->
  frameClose fr' = true ->
  exists u' l,
    loop (fr :: fr' :: rest) u = Done (Some RegularTermination) u' l /\
    In EContextUpdate l /\ In (EGlfw CSwapBuffers) l.
Proof.
  intros Hq Hrun Hclose Hfocus Hupd Hbind Hclose'.
  destruct (update_not_closing fr u Hq Hrun Hclose)
    as (a & u1 & c1 & Ha & Hcases).
  assert (Hdone : exists u2 l2,
             update fr u = Done None u2 (l2 ++ [EContextUpdate]) /\
             funcs u2 = funcs u /\ running u2 = running u).
  { destruct Hcases as [Hh|(u2 & lp & Hu & _ & Hgeo)].
    - exfalso. revert Hh.
      unfold update, dispatch, bindL, getL, effect, retL, whenL, modifyL,
        liftM.
      destruct (funcs u) eqn:Ef; [|congruence].
      rewrite Hrun, Hclose, Hfocus. simpl. rewrite Ef, Hrun.
      destruct (sizeChanged u) eqn:Hsc; simpl.
      + rewrite Ha. simpl.
        destruct (actualScreenScale_returns (framePlatform fr)
                    (set_sizeChanged false u))
          as (a' & u1' & c1' & Ha' & Hg1 & _).
        rewrite Ha in Ha'. inversion Ha'; subst a' u1' c1'.
        destruct Hg1 as (_ & _ & _ & _ & _ & Hf1 & Hr1 & _).
        simpl in Hf1, Hr1. rewrite Hf1, Ef, Hr1, Hrun.
        destruct (pollEvents_done (framePlatform fr) u1)
          as (v1 & m1 & Hp1 & _). rewrite Hp1.
        cbn [waitForFocus]. unfold bindL, effect, retL.
        destruct (pollEvents_done (framePlatform fr) v1)
          as (v2 & m2 & Hp2 & _). rewrite Hp2. discriminate.
      + rewrite Ef, Hrun.
        destruct (pollEvents_done (framePlatform fr) u)
          as (v1 & m1 & Hp1 & _). rewrite Hp1.
        cbn [waitForFocus]. unfold bindL, effect, retL.
        destruct (pollEvents_done (framePlatform fr) v1)
          as (v2 & m2 & Hp2 & _). rewrite Hp2. discriminate.
    - rewrite Hupd in Hu.
      destruct Hgeo as (_ & _ & _ & _ & _ & Hf & Hr & _). simpl in Hf, Hr.
      eexists u2, _. split; [|split; assumption].
      rewrite Hu. rewrite !app_assoc. reflexivity. }
  destruct Hdone as (u2 & l2 & Hu & Hf & Hr).
  assert (Hq2 : funcs u2 <> None) by congruence.
  assert (Hr2 : running u2 = true) by congruence.
  unfold loop, bindL at 1.
  rewrite (passes_step fr (fr' :: rest) u None u2 _ Hq2 Hr2 Hu), Hbind.
  rewrite (passes_step fr' rest u2 (Some RegularTermination) u2 _ Hq2 Hr2
             (update_closing fr' u2 Hq2 Hr2 Hclose')).
  simpl. unfold bindL at 1.
  rewrite (dispatch_running _ _ _ Hq2 Hr2). simpl.
  do 2 eexists. split; [reflexivity|].
  rewrite !in_app_iff. simpl.
  split; [left; left; left; right; left; reflexivity|].
  left. left. right. right. left. reflexivity.
Qed.

Lemma close_during_focus_wait_ends_next_pass_witness :
  exists u' l,
    loop [unfocusedClosingFrame desktop; closingFrame desktop]
      (set_running true windowed640)
    = Done (Some RegularTermination) u' l /\
    In EContextUpdate l /\ In (EGlfw CSwapBuffers) l.
Proof.
  apply (close_during_focus_wait_ends_next_pass
           (unfocusedClosingFrame desktop) (closingFrame desktop) []
           HasFocus (set_running true windowed640));
    try reflexivity.
  discriminate.
Defined.

(** X19: a pass in which the graphics context or the framebuffer binding
    fails ends the loop with that error, and the buffers are not swapped:
    the loop goes straight to [glfw.Terminate()]. *)
Theorem failing_pass_does_not_swap
  (fr : Frame) (rest : list Frame) (x : failure) (u : userInterface)
  (e : option failure) (u' : userInterface) (l : list Effect) :
  funcs u <> None -> running u = true ->
  frameClose fr = false ->
  frameUpdate fr = Some x \/ (frameUpdate fr = None /\ frameBind fr = Some x) ->
  loop (fr :: rest) u = Done e u' l ->
  e = Some x /\
  forallb notSwap l = true /\
  exists l0, l = l0 ++ [ETerminate].
Proof.
  intros Hq Hrun Hclose Hfail Hret.
  unfold loop in Hret. unfold bindL at 1 in Hret.
  destruct (update fr u) as [e1 u1 l1| |] eqn:Hu;
    try (cbn [passes] in Hret; unfold bindL in Hret; rewrite Hu in Hret;
         discriminate).
  destruct (update_done fr u e1 u1 l1 Hq Hrun Hu)
    as (Hf & Hr & _ & [(_ & Hc)|(He & _ & l0 & Hl & Hns)]);
    [congruence|].
  assert (Hq1 : funcs u1 <> None) by congruence.
  assert (Hr1 : running u1 = true) by congruence.
  rewrite (passes_step fr rest u e1 u1 l1 Hq1 Hr1 Hu) in Hret.
  destruct Hfail as [Hupd|[Hupd Hbind]]; rewrite He, Hupd in Hret.
  - unfold bindL at 1 in Hret.
    rewrite (dispatch_running _ _ _ Hq1 Hr1) in Hret. simpl in Hret.
    inversion Hret; subst. split; [reflexivity|]. split.
    + rewrite !forallb_app, Hns. reflexivity.
    + eexists. reflexivity.
  - rewrite Hbind in Hret. unfold bindL at 1 in Hret.
    rewrite (dispatch_running _ _ _ Hq1 Hr1) in Hret. simpl in Hret.
    inversion Hret; subst. split; [reflexivity|]. split.
    + rewrite !forallb_app, Hns. reflexivity.
    + eexists. reflexivity.
Qed.

Lemma failing_pass_does_not_swap_witness :
  exists u' l,
    loop [failingFrame desktop "lost context"; quietFrame desktop]
      (set_running true windowed640)
    = Done (Some (Failed "lost context")) u' l /\
    forallb notSwap l = true /\
    exists l0, l = l0 ++ [ETerminate].
Proof.
  do 2 eexists.
  assert (H : loop [failingFrame desktop "lost context"; quietFrame desktop]
                (set_running true windowed640)
              = Done (Some (Failed "lost context"))
                  (stateAfter
                     (actualScreenScale desktop
                        (set_sizeChanged false
                           (set_running true windowed640)))
                     windowed640)
                  [EShouldClose; EContextSetSize 640 480 1%float;
                   EGlfw CPollEvents; EInputUpdate 1%float; EFocused;
                   EContextUpdate; ETerminate])
    by (vm_compute; reflexivity).
  split; [exact H|].
  apply (failing_pass_does_not_swap (failingFrame desktop "lost context")
           [quietFrame desktop] (Failed "lost context")
           (set_running true windowed640) _ _ _
           ltac:(discriminate) eq_refl eq_refl (or_introl eq_refl) H).
Defined.

(** ** [Run] *)

(** X20: when [setScreenSize] refuses the first size, [Run] returns the
    error "ui: Fail to set the screen size" right away: the title is not
    set, the window is not shown or moved, the loop is not entered and
    [glfw.Terminate()] is not called. *)
Theorem Run_fails_when_size_is_refused
  (adjust : Z -> Z -> Z * Z) (p : Platform) (w h : Z) (s : float)
  (t : string) (frs : list Frame) (u u1 : userInterface) (c : list Call) :
  funcs u <> None -> running u = true ->
  setScreenSize p w h s false u = Returns false u1 c ->
  Run adjust p w h s t frs u
  = Done (Some (Failed "ui: Fail to set the screen size")) u1
      ([EOpenglInit; EGlfw CGetVideoMode] ++ map EGlfw c) /\
  title u1 = title u.
Proof.
  intros Hq Hrun Hret. split.
  - unfold Run. unfold bindL at 1. unfold effect at 1.
    unfold bindL at 1. rewrite (dispatch_running _ _ _ Hq Hrun).
    unfold bindL, liftM, GetVideoMode, bind, call, ret. simpl.
    rewrite Hret. simpl. rewrite !app_nil_r. reflexivity.
  - destruct (setScreenSize_false_frame _ _ _ _ _ _ _ _ Hret)
      as ((Ht & _) & _). exact Ht.
Qed.

Lemma Run_fails_when_size_is_refused_witness :
  Run noAdjust desktop 100 100 1%float "game" [quietFrame desktop]
    (set_running true initialize)
  = Done (Some (Failed "ui: Fail to set the screen size"))
      (set_deviceScale 1%float (set_running true initialize))
      ([EOpenglInit; EGlfw CGetVideoMode] ++ map EGlfw [CDeviceScale]) /\
  title (set_deviceScale 1%float (set_running true initialize))
  = title (set_running true initialize).
Proof.
  apply (Run_fails_when_size_is_refused noAdjust desktop 100 100 1%float
           "game" [quietFrame desktop] (set_running true initialize)).
  - discriminate.
  - reflexivity.
  - vm_compute. reflexivity.
Defined.

(** X21: when [setScreenSize] accepts the first size, [Run] stores and sets
    the title, shows the window, moves it to the middle of the display
    horizontally and to a third of the free height vertically (as adjusted
    for the operating system), and then is [loop]. *)
Theorem Run_centres_the_window_and_loops
  (adjust : Z -> Z -> Z * Z) (p : Platform) (w h : Z) (s : float)
  (t : string) (frs : list Frame) (u u1 : userInterface) (c : list Call) :
  funcs u <> None -> running u = true ->
  setScreenSize p w h s false u = Returns true u1 c ->
  exists u2 c2,
    glfwSize p (set_title t u1)
    = Returns (windowSize w h s (glfwScale u2)) u2 c2 /\
    title u2 = t /\
    Run adjust p w h s t frs u
    = withLog
        ([EOpenglInit; EGlfw CGetVideoMode] ++ map EGlfw c ++
         [EGlfw (CSetTitle t); EShow] ++ map EGlfw c2 ++
         [ESetPos
            (fst (adjust
                    (Z.quot (wrapInt (Width (platVideoMode p)
                                      - fst (windowSize w h s (glfwScale u2))))
                       2)
                    (Z.quot (wrapInt (Height (platVideoMode p)
                                      - snd (windowSize w h s (glfwScale u2))))
                       3)))
            (snd (adjust
                    (Z.quot (wrapInt (Width (platVideoMode p)
                                      - fst (windowSize w h s (glfwScale u2))))
                       2)
                    (Z.quot (wrapInt (Height (platVideoMode p)
                                      - snd (windowSize w h s (glfwScale u2))))
                       3)))])
        (loop frs u2).
Proof.
  intros Hq Hrun Hret.
  destruct (setScreenSize_true_fields _ _ _ _ _ _ _ _ Hret)
    as (Hw & Hh & Hs & _).
  destruct (glfwSize_returns p (set_title t u1))
    as (u2 & c2 & Hg & Hgeo & _).
  simpl in Hg. rewrite Hw, Hh, Hs in Hg.
  exists u2, c2. split; [exact Hg|].
  destruct Hgeo as (Ht & _). simpl in Ht. split; [exact Ht|].
  unfold Run. unfold bindL at 1. unfold effect at 1.
  unfold bindL at 1. rewrite (dispatch_running _ _ _ Hq Hrun).
  unfold bindL.
  unfold liftM, GetVideoMode, bind, call, ret, modifyL, effect, retL.
  simpl. rewrite Hret. simpl. rewrite Hg. simpl.
  destruct (loop frs u2) as [e u3 l3| |]; simpl; reflexivity.
Qed.

Lemma Run_centres_the_window_and_loops_witness :
  exists u2 c2,
    glfwSize desktop (set_title "game" (set_running true windowed640))
    = Returns (windowSize 640 480 1%float (glfwScale u2)) u2 c2 /\
    title u2 = "game"%string /\
    Run noAdjust desktop 640 480 1%float "game" [closingFrame desktop]
      (set_running true initialize)
    = withLog
        ([EOpenglInit; EGlfw CGetVideoMode] ++
         map EGlfw
           [CDeviceScale; CSwapBuffers; CGetVideoMode;
            CSetFramebufferSizeCallback; CGlfwScale; CSetSize 640 480;
            CPollEvents; CPollEvents; CSetTitle EmptyString] ++
         [EGlfw (CSetTitle "game"); EShow] ++ map EGlfw c2 ++
         [ESetPos
            (fst (noAdjust
                    (Z.quot
                       (wrapInt
                          (Width (platVideoMode desktop)
                           - fst (windowSize 640 480 1%float (glfwScale u2))))
                       2)
                    (Z.quot
                       (wrapInt
                          (Height (platVideoMode desktop)
                           - snd (windowSize 640 480 1%float (glfwScale u2))))
                       3)))
            (snd (noAdjust
                    (Z.quot
                       (wrapInt
                          (Width (platVideoMode desktop)
                           - fst (windowSize 640 480 1%float (glfwScale u2))))
                       2)
                    (Z.quot
                       (wrapInt
                          (Height (platVideoMode desktop)
                           - snd (windowSize 640 480 1%float (glfwScale u2))))
                       3)))])
        (loop [closingFrame desktop] u2).
Proof.
  apply (Run_centres_the_window_and_loops noAdjust desktop 640 480 1%float
           "game" [closingFrame desktop] (set_running true initialize)
           (set_running true windowed640)).
  - discriminate.
  - reflexivity.
  - vm_compute. reflexivity.
Defined.

(** A whole run: 640x480 on the 1920x1080 display, closed in the first
    pass.  The window goes to (640, 200). *)
Example Run_640x480_then_close :
  exists u',
    Run noAdjust desktop 640 480 1%float "game" [closingFrame desktop]
      (set_running true initialize)
    = Done (Some RegularTermination) u'
        [EOpenglInit; EGlfw CGetVideoMode; EGlfw CDeviceScale;
         EGlfw CSwapBuffers; EGlfw CGetVideoMode;
         EGlfw CSetFramebufferSizeCallback; EGlfw CGlfwScale;
         EGlfw (CSetSize 640 480); EGlfw CPollEvents; EGlfw CPollEvents;
         EGlfw (CSetTitle EmptyString); EGlfw (CSetTitle "game"); EShow;
         ESetPos 640 200; EShouldClose; ETerminate] /\
    title u' = "game"%string.
Proof. eexists. split; vm_compute; reflexivity. Qed.

(** [dispatch] is [runOnMainThread] on the closures that stay inside the
    geometry code. *)
Lemma dispatch_is_runOnMainThread
  {R : Type} (f : R -> M (R * error)) (r : R) (u : userInterface) :
  dispatch
    (fun r0 =>
       bindL (liftM (f r0))
         (fun x => retL (fst x, option_map Failed (snd x)))) r u
  = bindL (liftM (runOnMainThread f r))
      (fun x => retL (fst x, option_map Failed (snd x))) u.
Proof.
  unfold dispatch, runOnMainThread, bindL, getL, liftM, retL, hang,
    bind, get, ret, block.
  destruct (funcs u); [destruct (running u)|]; simpl.
  - destruct (f r u) as [x u1 c1| |]; simpl; reflexivity.
  - reflexivity.
  - reflexivity.
Qed.
